(** * clinic_monitor: a shallow embedding of [clinic_monitor.py]

    The script polls a clinic's booking page with a headless browser and
    posts a rate-limited alert to a Slack webhook.  The embedding keeps the
    control flow of the Python source: every function is a computation in a
    small monad that threads the function's local variables, records the
    external calls it makes (log lines, sleeps, browser calls, HTTP posts)
    and completes the way a Python block does: normally, by [return],
    [continue], [break] or by raising.

    What the outside world answers (whether a browser call fails, what the
    page looks like, what the webhook replies, what the clock shows) is an
    input of the model. *)

From Stdlib Require Import String Ascii List ZArith QArith Bool Arith Lia Lqa.
From Stdlib Require Import DecimalString.
Import ListNotations.

Set Warnings "-register-all".

Local Open Scope string_scope.
Local Open Scope list_scope.
Local Open Scope nat_scope.

(* ------------------------------------------------------------------ *)
(** * Python values used by the script *)

(** Exceptions.  [KeyboardInterrupt] and [asyncio.CancelledError] derive
    from [BaseException] only, so an [except Exception] clause does not
    catch them; the others are subclasses of [Exception]. *)
Inductive exn : Type :=
| Exception (msg : string)
| ValueError (msg : string)
| IndexError (msg : string)
| OverflowError (msg : string)
| KeyboardInterrupt
| CancelledError.

(** [isinstance(e, Exception)] *)
Definition is_Exception (e : exn) : bool :=
  match e with
  | KeyboardInterrupt | CancelledError => false
  | _ => true
  end.

(** [isinstance(e, ValueError)] *)
Definition is_ValueError (e : exn) : bool :=
  match e with
  | ValueError _ => true
  | _ => false
  end.

(** [isinstance(e, KeyboardInterrupt)] *)
Definition is_KeyboardInterrupt (e : exn) : bool :=
  match e with
  | KeyboardInterrupt => true
  | _ => false
  end.

(** [str(e)], as the f-strings of the script format an exception. *)
Definition str_exn (e : exn) : string :=
  match e with
  | Exception m | ValueError m | IndexError m | OverflowError m => m
  | KeyboardInterrupt | CancelledError => ""
  end.

(** [str(n)] for a natural number and for an integer. *)
Definition str_nat (n : nat) : string := NilZero.string_of_uint (Nat.to_uint n).
Definition str_Z (z : Z) : string := NilZero.string_of_int (Z.to_int z).

(** The JSON payload handed to [requests.post(..., json=message)]. *)
Inductive json : Type :=
| JStr (s : string)
| JBool (b : bool)
| JList (items : list json)
| JObj (fields : list (string * json)).

(** ** The rendered page

    An element carries its CSS classes and its child elements. *)
Inductive element : Type :=
| Element (classes : list string) (children : list element).

Definition classes_of (e : element) : list string :=
  match e with Element cs _ => cs end.

Definition children_of (e : element) : list element :=
  match e with Element _ ch => ch end.

(** A selector list: alternatives (separated by commas in CSS), each a
    compound of class selectors that must all hold of one element. *)
Definition selector : Type := list (list string).

(** ['.day-flex-col'] *)
Definition day_flex_col_selector : selector := [["day-flex-col"]].

(** ['.day-cell.capacity-enough, .day-cell.capacity-few'] *)
Definition slot_selector : selector :=
  [["day-cell"; "capacity-enough"]; ["day-cell"; "capacity-few"]].

Definition has_class (e : element) (c : string) : bool :=
  existsb (String.eqb c) (classes_of e).

Definition matches (sel : selector) (e : element) : bool :=
  existsb (fun compound => forallb (has_class e) compound) sel.

(** The element and everything below it, in document order. *)
Fixpoint subtree (e : element) : list element :=
  e :: match e with
       | Element _ ch => flat_map subtree ch
       end.

(** The elements strictly below [e], in document order. *)
Definition descendants (e : element) : list element :=
  flat_map subtree (children_of e).

(** [page.query_selector_all(sel)]: every matching element of the document
    whose root is [root]. *)
Definition page_query_selector_all (root : element) (sel : selector)
  : list element :=
  filter (matches sel) (subtree root).

(** [handle.query_selector_all(sel)]: every matching element below the
    element the handle refers to. *)
Definition element_query_selector_all (e : element) (sel : selector)
  : list element :=
  filter (matches sel) (descendants e).

(** Python truthiness of a list and of a string. *)
Definition truthy_list {A : Type} (l : list A) : bool :=
  match l with [] => false | _ => true end.

Definition truthy_str (s : string) : bool :=
  match s with EmptyString => false | _ => true end.

(** [s.endswith(suffix)] *)
Definition endswith (s suffix : string) : bool :=
  let n := String.length s in
  let m := String.length suffix in
  if m <=? n then String.eqb (substring (n - m) m s) suffix else false.

(* ------------------------------------------------------------------ *)
(** * What the script does to the outside world *)

Inductive level : Type := INFO | WARNING | ERROR.

(** The two things a browser query is run against. *)
Inductive query_target : Type :=
| OnPage
| OnElement (e : element).

Inductive browser_call : Type :=
| PlaywrightStart                       (* async_playwright().__aenter__ *)
| Launch                                (* p.chromium.launch(headless=True) *)
| NewPage                               (* browser.new_page() *)
| SetDefaultTimeout (ms : Z)            (* page.set_default_timeout(ms) *)
| Goto (url : string) (timeout : Z)     (* page.goto(url, ...) *)
| WaitForTimeout (ms : Z)               (* page.wait_for_timeout(ms) *)
| QuerySelectorAll (on : query_target) (sel : selector)
| Close                                 (* browser.close() *)
| PlaywrightStop.                       (* async_playwright().__aexit__ *)

(** An external call, with what is needed to tell the calls apart.  A
    browser call is recorded with the message of the error it raised, if it
    raised one. *)
Inductive event : Type :=
| Log (lv : level) (msg : string)       (* logger.info / warning / error *)
| Print (line : string)                 (* print(line) *)
| Sleep (seconds : Z)                   (* asyncio.sleep(seconds) *)
| Clock (t : Q)                         (* time.time() answered t *)
| Browser (c : browser_call) (error : option string)
| HttpPost (url : string) (body : json) (* requests.post(url, json=body) *).

Definition trace : Type := list event.

(* ------------------------------------------------------------------ *)
(** * The monad of Python blocks *)

(** How a block of statements completes.  [R] is the type the enclosing
    function returns, [A] the value of the block when it falls through. *)
Inductive completion (R A : Type) : Type :=
| Normal (a : A)
| Return (r : R)
| Continue
| Break
| Raise (e : exn)
| Running.     (* an unbounded loop inside the block has not finished yet *)

Arguments Normal {R A} a.
Arguments Return {R A} r.
Arguments Continue {R A}.
Arguments Break {R A}.
Arguments Raise {R A} e.
Arguments Running {R A}.

(** A block reads and writes the local variables [L] of its function and
    emits events. *)
Definition M (L R A : Type) : Type := L -> completion R A * L * trace.

Section Blocks.
Context {L R : Type}.

Definition ret {A : Type} (a : A) : M L R A :=
  fun l => (Normal a, l, []).

Definition bind {A B : Type} (m : M L R A) (k : A -> M L R B) : M L R B :=
  fun l =>
    match m l with
    | (Normal a, l1, t1) =>
        let '(c, l2, t2) := k a l1 in (c, l2, t1 ++ t2)
    | (Return r, l1, t1) => (Return r, l1, t1)
    | (Continue, l1, t1) => (Continue, l1, t1)
    | (Break, l1, t1) => (Break, l1, t1)
    | (Raise e, l1, t1) => (Raise e, l1, t1)
    | (Running, l1, t1) => (Running, l1, t1)
    end.

Definition emit (e : event) : M L R unit :=
  fun l => (Normal tt, l, [e]).

Definition return_ {A : Type} (r : R) : M L R A :=
  fun l => (Return r, l, []).

Definition continue_ {A : Type} : M L R A :=
  fun l => (Continue, l, []).

Definition break_ {A : Type} : M L R A :=
  fun l => (Break, l, []).

Definition raise {A : Type} (e : exn) : M L R A :=
  fun l => (Raise e, l, []).

Definition get : M L R L :=
  fun l => (Normal l, l, []).

Definition put (l' : L) : M L R unit :=
  fun _ => (Normal tt, l', []).

(** [try: body  except ...: handler].  [handlers e] is the body of the
    first [except] clause that matches [e], if any. *)
Definition try_except {A : Type} (body : M L R A)
           (handlers : exn -> option (M L R A)) : M L R A :=
  fun l =>
    match body l with
    | (Raise e, l1, t1) =>
        match handlers e with
        | Some h => let '(c, l2, t2) := h l1 in (c, l2, t1 ++ t2)
        | None => (Raise e, l1, t1)
        end
    | done => done
    end.

(** [try: body  finally: fin].  The [finally] block runs however the
    body completes; when it falls through, the body's completion stands,
    otherwise its own completion replaces it. *)
Definition try_finally {A : Type} (body : M L R A) (fin : M L R unit)
  : M L R A :=
  fun l =>
    match body l with
    | (Running, l1, t1) => (Running, l1, t1)
    | (c, l1, t1) =>
        match fin l1 with
        | (Normal _, l2, t2) => (c, l2, t1 ++ t2)
        | (Return r, l2, t2) => (Return r, l2, t1 ++ t2)
        | (Continue, l2, t2) => (Continue, l2, t1 ++ t2)
        | (Break, l2, t2) => (Break, l2, t1 ++ t2)
        | (Raise e, l2, t2) => (Raise e, l2, t1 ++ t2)
        | (Running, l2, t2) => (Running, l2, t1 ++ t2)
        end
    end.

(** [async with cm: body], for a context manager that does not swallow
    exceptions: [__aexit__] runs on every way out of the body. *)
Definition async_with {A : Type} (enter exit : M L R unit) (body : M L R A)
  : M L R A :=
  bind enter (fun _ => try_finally body exit).

(** [for i in items: body i] *)
Fixpoint for_each {I : Type} (items : list I) (body : I -> M L R unit)
  : M L R unit :=
  match items with
  | [] => ret tt
  | i :: rest =>
      fun l =>
        match body i l with
        | (Normal _, l1, t1) | (Continue, l1, t1) =>
            let '(c, l2, t2) := for_each rest body l1 in (c, l2, t1 ++ t2)
        | (Break, l1, t1) => (Normal tt, l1, t1)
        | (Return r, l1, t1) => (Return r, l1, t1)
        | (Raise e, l1, t1) => (Raise e, l1, t1)
        | (Running, l1, t1) => (Running, l1, t1)
        end
  end.

(** [while True: body], unrolled at most [fuel] times: [Running] when the
    loop has not ended within [fuel] iterations.  [k] is the number of
    the iteration the loop is at. *)
Fixpoint while_true (fuel : nat) (k : nat) (body : nat -> M L R unit)
  : M L R unit :=
  match fuel with
  | O => fun l => (Running, l, [])
  | S fuel' =>
      fun l =>
        match body k l with
        | (Normal _, l1, t1) | (Continue, l1, t1) =>
            let '(c, l2, t2) := while_true fuel' (S k) body l1 in
            (c, l2, t1 ++ t2)
        | (Break, l1, t1) => (Normal tt, l1, t1)
        | (Return r, l1, t1) => (Return r, l1, t1)
        | (Raise e, l1, t1) => (Raise e, l1, t1)
        | (Running, l1, t1) => (Running, l1, t1)
        end
  end.

(** [if cond: stmt], without [else] *)
Definition when (cond : bool) (stmt : M L R unit) : M L R unit :=
  if cond then stmt else ret tt.

(** [logger.info(msg)] and the like, and [print(line)]. *)
Definition log (lv : level) (msg : string) : M L R unit := emit (Log lv msg).
Definition print (line : string) : M L R unit := emit (Print line).

End Blocks.

Declare Scope py_scope.
Delimit Scope py_scope with py.
Notation "x <- c1 ;; c2" := (bind c1 (fun x => c2))
  (at level 61, c1 at next level, right associativity) : py_scope.
Notation "c1 ;; c2" := (bind c1 (fun _ => c2))
  (at level 61, right associativity) : py_scope.
Local Open Scope py_scope.

(** How a call of a function ends: with the value it returns or with the
    exception it lets through; [StillRunning] when a loop inside it has not
    finished within its fuel. *)
Inductive outcome (R : Type) : Type :=
| Returns (r : R)
| Raises (e : exn)
| StillRunning.

Arguments Returns {R} r.
Arguments Raises {R} e.
Arguments StillRunning {R}.

(** The result of running a function body from fresh locals.  Falling off
    the end returns [dflt] (Python's [None]). *)
Definition run_body {L R : Type} (body : M L R unit) (l0 : L) (dflt : R)
  : outcome R * trace :=
  match body l0 with
  | (Return r, _, t) => (Returns r, t)
  | (Raise e, _, t) => (Raises e, t)
  | (Running, _, t) => (StillRunning, t)
  | (_, _, t) => (Returns dflt, t)
  end.

(** Calling a function from inside a block of another function. *)
Definition call {L R B : Type} (f : outcome B * trace) : M L R B :=
  fun l =>
    match f with
    | (Returns b, t) => (Normal b, l, t)
    | (Raises e, t) => (Raise e, l, t)
    | (StillRunning, t) => (Running, l, t)
    end.

(* ------------------------------------------------------------------ *)
(** * Configuration *)

(** The four module-level values read from the environment at import. *)
Record config : Type := {
  CLINIC_URL : string;
  SLACK_WEBHOOK_URL : string;
  CHECK_INTERVAL : Z;          (* seconds *)
  NOTIFICATION_INTERVAL : Z    (* seconds *)
}.

(** The two attributes of [urlparse]'s result the script reads. *)
Record parse_result : Type := {
  scheme : string;
  netloc : string
}.

(** ** [urllib.parse] on ASCII text

    [urlparse] belongs to Python's library, not to the script; the
    validator below is stated over any [urlparse].  [urlsplit_ascii]
    follows CPython's [urlsplit] for the scheme and the network location of
    ASCII text: leading control characters and spaces are stripped, tabs
    and line breaks removed, the scheme is the text before the first colon
    when it starts with a letter and consists of scheme characters, the
    network location is the text between a leading [//] and the first of
    [/], [?], [#]; a network location with one square bracket but not the
    other is refused.  A parser answers [inl] with the parts of the URL or
    [inr msg] when it raises [ValueError(msg)], the one exception
    [urlparse] raises on text.  (The check of the text between two brackets and the
    NFKC check of non-ASCII network locations are not modelled.) *)
Module Url.

Definition code (c : ascii) : nat := nat_of_ascii c.

Definition is_alpha (c : ascii) : bool :=
  ((65 <=? code c) && (code c <=? 90)) || ((97 <=? code c) && (code c <=? 122)).

Definition is_digit (c : ascii) : bool :=
  (48 <=? code c) && (code c <=? 57).

(** [scheme_chars]: letters, digits, [+], [-] and [.] *)
Definition is_scheme_char (c : ascii) : bool :=
  is_alpha c || is_digit c
  || Ascii.eqb c "+" || Ascii.eqb c "-" || Ascii.eqb c ".".

Definition lower_char (c : ascii) : ascii :=
  if (65 <=? code c) && (code c <=? 90) then ascii_of_nat (code c + 32) else c.

Fixpoint lower (s : string) : string :=
  match s with
  | EmptyString => EmptyString
  | String c r => String (lower_char c) (lower r)
  end.

Fixpoint all_chars (p : ascii -> bool) (s : string) : bool :=
  match s with
  | EmptyString => true
  | String c r => p c && all_chars p r
  end.

Fixpoint contains (c : ascii) (s : string) : bool :=
  match s with
  | EmptyString => false
  | String d r => Ascii.eqb c d || contains c r
  end.

(** [s.find(c)] *)
Fixpoint find (c : ascii) (s : string) : option nat :=
  match s with
  | EmptyString => None
  | String d r =>
      if Ascii.eqb c d then Some 0
      else match find c r with Some i => Some (S i) | None => None end
  end.

(** [s.lstrip(chars)] for the characters [p] accepts *)
Fixpoint lstrip (p : ascii -> bool) (s : string) : string :=
  match s with
  | EmptyString => EmptyString
  | String c r => if p c then lstrip p r else s
  end.

Fixpoint remove (p : ascii -> bool) (s : string) : string :=
  match s with
  | EmptyString => EmptyString
  | String c r => if p c then remove p r else String c (remove p r)
  end.

(** The text up to the first character [p] accepts. *)
Fixpoint take_until (p : ascii -> bool) (s : string) : string :=
  match s with
  | EmptyString => EmptyString
  | String c r => if p c then EmptyString else String c (take_until p r)
  end.

Definition drop (n : nat) (s : string) : string :=
  substring n (String.length s - n) s.

Definition is_c0_or_space (c : ascii) : bool := code c <=? 32.

Definition is_tab_or_newline (c : ascii) : bool :=
  (code c =? 9) || (code c =? 10) || (code c =? 13).

Definition ends_netloc (c : ascii) : bool :=
  Ascii.eqb c "/" || Ascii.eqb c "?" || Ascii.eqb c "#".

(** The scheme and what follows it. *)
Definition split_scheme (url : string) : string * string :=
  match find ":" url, url with
  | Some (S i), String c0 _ =>
      if is_alpha c0 && all_chars is_scheme_char (substring 0 (S i) url)
      then (lower (substring 0 (S i) url), drop (S (S i)) url)
      else (EmptyString, url)
  | _, _ => (EmptyString, url)
  end.

Definition urlsplit_ascii (text : string) : parse_result + string :=
  let url := remove is_tab_or_newline (lstrip is_c0_or_space text) in
  let '(sch, rest) := split_scheme url in
  if String.eqb (substring 0 2 rest) "//" then
    let loc := take_until ends_netloc (drop 2 rest) in
    if xorb (contains "[" loc) (contains "]" loc)
    then inr "Invalid IPv6 URL"
    else inl {| scheme := sch; netloc := loc |}
  else inl {| scheme := sch; netloc := EmptyString |}.

(** The text after the last [@] ([netloc.rpartition('@')]). *)
Fixpoint after_last_at (s : string) : string :=
  match s with
  | EmptyString => EmptyString
  | String c r =>
      if contains "@" r then after_last_at r
      else if Ascii.eqb c "@" then r else s
  end.

(** The [hostname] attribute of a parse result, for a network location
    without square brackets: the text after the user information and
    before the port, in lower case. *)
Definition hostname (p : parse_result) : string :=
  lower (take_until (Ascii.eqb ":") (after_last_at (netloc p))).

End Url.

(* ------------------------------------------------------------------ *)
(** * [validate_environment] *)

Section Validator.
Variable urlparse : string -> parse_result + string.
Variable cfg : config.

Definition py_urlparse {L R : Type} (url : string) : M L R parse_result :=
  match urlparse url with
  | inl p => ret p
  | inr msg => raise (ValueError msg)
  end.

Definition validate_environment_body : M unit unit unit :=
  when (negb (truthy_str (SLACK_WEBHOOK_URL cfg)))
    (raise (ValueError "SLACK_WEBHOOK_URL environment variable is required")) ;;
  (* Validate Slack webhook URL format *)
  try_except
    (parsed <- py_urlparse (SLACK_WEBHOOK_URL cfg) ;;
     when (negb (truthy_str (scheme parsed) && truthy_str (netloc parsed)))
       (raise (ValueError "SLACK_WEBHOOK_URL must be a valid URL")) ;;
     when (negb (endswith (netloc parsed) "slack.com"))
       (raise (ValueError "SLACK_WEBHOOK_URL must be a Slack webhook URL")))
    (fun e =>
       if is_Exception e
       then Some (raise (ValueError ("Invalid SLACK_WEBHOOK_URL: " ++ str_exn e)))
       else None) ;;
  when (negb (truthy_str (CLINIC_URL cfg)))
    (raise (ValueError "CLINIC_URL environment variable is required")) ;;
  (* Validate clinic URL format *)
  try_except
    (parsed <- py_urlparse (CLINIC_URL cfg) ;;
     when (negb (truthy_str (scheme parsed) && truthy_str (netloc parsed)))
       (raise (ValueError "CLINIC_URL must be a valid URL")))
    (fun e =>
       if is_Exception e
       then Some (raise (ValueError ("Invalid CLINIC_URL: " ++ str_exn e)))
       else None) ;;
  log INFO "Environment variables validated successfully".

Definition validate_environment : outcome unit * trace :=
  run_body validate_environment_body tt tt.

(** ** The validator's contract, in the words of the specification *)

(** A well-formed URL: it parses, and neither its scheme nor its network
    location is missing. *)
Definition well_formed (url : string) : bool :=
  match urlparse url with
  | inl p => truthy_str (scheme p) && truthy_str (netloc p)
  | inr _ => false
  end.

(** Hosted on the messaging domain, by the network location. *)
Definition netloc_on_slack (url : string) : bool :=
  match urlparse url with
  | inl p => endswith (netloc p) "slack.com"
  | inr _ => false
  end.

(** Hosted on the messaging domain, by the host name alone. *)
Definition host_on_slack (url : string) : bool :=
  match urlparse url with
  | inl p => endswith (Url.hostname p) "slack.com"
  | inr _ => false
  end.

(** The configurations the validator is to refuse, with the network
    location deciding the domain. *)
Definition config_rejected : bool :=
  negb (truthy_str (SLACK_WEBHOOK_URL cfg))
  || negb (well_formed (SLACK_WEBHOOK_URL cfg))
  || negb (netloc_on_slack (SLACK_WEBHOOK_URL cfg))
  || negb (truthy_str (CLINIC_URL cfg))
  || negb (well_formed (CLINIC_URL cfg)).

(** The same, with the host name deciding the domain. *)
Definition config_rejected_by_host : bool :=
  negb (truthy_str (SLACK_WEBHOOK_URL cfg))
  || negb (well_formed (SLACK_WEBHOOK_URL cfg))
  || negb (host_on_slack (SLACK_WEBHOOK_URL cfg))
  || negb (truthy_str (CLINIC_URL cfg))
  || negb (well_formed (CLINIC_URL cfg)).

(** A call ends in a configuration error. *)
Definition config_error {R : Type} (o : outcome R) : bool :=
  match o with
  | Raises e => is_ValueError e
  | _ => false
  end.

End Validator.

(* ------------------------------------------------------------------ *)
(** * [check_availability] *)

(** The places of one attempt where [check_availability] calls into
    Playwright. *)
Inductive site : Type :=
| AtStart             (* async with async_playwright() as p: *)
| AtLaunch            (* p.chromium.launch(headless=True) *)
| AtNewPage           (* browser.new_page() *)
| AtSetDefaultTimeout (* page.set_default_timeout(30000) *)
| AtGoto              (* page.goto(CLINIC_URL, ...) *)
| AtWaitForTimeout    (* page.wait_for_timeout(3000) *)
| AtQueryDays         (* page.query_selector_all('.day-flex-col') *)
| AtQueryToday        (* today_column.query_selector_all(...) *)
| AtQueryTomorrow     (* tomorrow_cols.query_selector_all(...) *)
| AtCloseBeforeRetry  (* browser.close() in the navigation handler *)
| AtCloseFinally      (* browser.close() in the finally block *)
| AtStop.             (* leaving the async with block *)

(** What the browser does during one attempt: which calls raise (with the
    message of the error, an instance of [Exception]) and the document the
    page shows once it is loaded. *)
Record session : Type := {
  failure : site -> option string;
  rendered : element
}.

Inductive browser_handle : Type := BrowserHandle.

(** The local variable [browser] of [check_availability]. *)
Definition check_locals : Type := option browser_handle.

Section Checker.
Variable cfg : config.

(** A call into Playwright: recorded, then raising if the session says
    so. *)
Definition playwright {L R : Type} (s : session) (at_ : site)
           (c : browser_call) : M L R unit :=
  emit (Browser c (failure s at_)) ;;
  match failure s at_ with
  | Some msg => raise (Exception msg)
  | None => ret tt
  end.

Definition query_selector_all {L R : Type} (s : session) (at_ : site)
           (on : query_target) (sel : selector) : M L R (list element) :=
  playwright s at_ (QuerySelectorAll on sel) ;;
  ret (match on with
       | OnPage => page_query_selector_all (rendered s) sel
       | OnElement e => element_query_selector_all e sel
       end).

(** [items[i]] *)
Definition py_index {L R A : Type} (items : list A) (i : nat) : M L R A :=
  match nth_error items i with
  | Some x => ret x
  | None => raise (IndexError "list index out of range")
  end.

(** [asyncio.sleep(seconds)] *)
Definition sleep {L R : Type} (seconds : Z) : M L R unit :=
  emit (Sleep seconds).

(** The body of [for attempt in range(max_retries):]. *)
Definition check_attempt (max_retries attempt : nat) (s : session)
  : M check_locals bool unit :=
  put None ;;
  try_finally
    (try_except
       (async_with (playwright s AtStart PlaywrightStart)
                   (playwright s AtStop PlaywrightStop)
          (playwright s AtLaunch Launch ;;
           put (Some BrowserHandle) ;;
           playwright s AtNewPage NewPage ;;
           (* Set longer timeout for navigation *)
           playwright s AtSetDefaultTimeout (SetDefaultTimeout 30000) ;;
           try_except
             (* Open the page with retry logic *)
             (playwright s AtGoto (Goto (CLINIC_URL cfg) 30000))
             (fun e =>
                if is_Exception e then Some (
                  if attempt <? max_retries - 1 then
                    log WARNING ("Navigation failed on attempt "
                                 ++ str_nat (attempt + 1) ++ ": " ++ str_exn e) ;;
                    playwright s AtCloseBeforeRetry Close ;;
                    sleep 5 ;;  (* Wait before retry *)
                    continue_
                  else
                    raise e)
                else None) ;;
           (* Wait a bit for content to fully load *)
           playwright s AtWaitForTimeout (WaitForTimeout 3000) ;;
           (* Get elements containing day-flex-col *)
           day_flex_col <- query_selector_all s AtQueryDays OnPage
                             day_flex_col_selector ;;
           when (negb (truthy_list day_flex_col))
             (log WARNING "day-flex-col elements not found" ;;
              return_ false) ;;
           (* Get the first day-flex-col (today's appointments) *)
           today_column <- py_index day_flex_col 0 ;;
           available_slots <- query_selector_all s AtQueryToday
                                (OnElement today_column) slot_selector ;;
           (* Check tomorrow's slots for logging *)
           tomorrow_cols <- (if 1 <? List.length day_flex_col
                             then col <- py_index day_flex_col 1 ;; ret (Some col)
                             else ret None) ;;
           match tomorrow_cols with
           | Some col =>
               tomorrow_slots <- query_selector_all s AtQueryTomorrow
                                   (OnElement col) slot_selector ;;
               when (truthy_list tomorrow_slots)
                 (log INFO ("Found " ++ str_nat (List.length tomorrow_slots)
                            ++ " available slots for tomorrow's appointments"))
           | None => ret tt
           end ;;
           if truthy_list available_slots then
             log INFO ("Found " ++ str_nat (List.length available_slots)
                       ++ " available slots for today's appointments") ;;
             return_ true
           else
             log INFO "No available slots for today's appointments" ;;
             return_ false))
       (fun e =>
          if is_Exception e then Some (
            if attempt <? max_retries - 1 then
              log WARNING ("Check availability failed on attempt "
                           ++ str_nat (attempt + 1) ++ ": " ++ str_exn e) ;;
              sleep 10  (* Wait before retry *)
            else
              log ERROR ("Error occurred while checking the page after "
                         ++ str_nat max_retries ++ " attempts: " ++ str_exn e) ;;
              return_ false)
          else None))
    (browser <- get ;;
     match browser with
     | Some _ =>
         try_except
           (playwright s AtCloseFinally Close)
           (fun e =>
              if is_Exception e
              then Some (log WARNING ("Error closing browser: " ++ str_exn e))
              else None)
     | None => ret tt
     end).

Definition check_availability_body (max_retries : nat)
           (sessions : nat -> session) : M check_locals bool unit :=
  for_each (seq 0 max_retries)
           (fun attempt => check_attempt max_retries attempt (sessions attempt)) ;;
  return_ false.

(** [check_availability(max_retries)]; [sessions k] is what the browser
    does during attempt [k]. *)
Definition check_availability (max_retries : nat) (sessions : nat -> session)
  : outcome bool * trace :=
  run_body (check_availability_body max_retries sessions) None false.

End Checker.

(* ------------------------------------------------------------------ *)
(** * [send_slack_notification] *)

Section Notifier.
Variable cfg : config.

(** What [requests.post] does: it answers with a status code, or raises
    an error of the transport (an instance of [Exception]). *)
Inductive post_reply : Type :=
| Status (code : Z)
| TransportError (msg : string).

Definition requests_post {L R : Type} (url : string) (body : json)
           (reply : post_reply) : M L R Z :=
  emit (HttpPost url body) ;;
  match reply with
  | Status code => ret code
  | TransportError msg => raise (Exception msg)
  end.

(** [timestamp] is [datetime.now().strftime('%Y-%m-%d %H:%M:%S')]. *)
Definition message (timestamp : string) : json :=
  JObj [
    ("text", JStr "🏥 Clinic appointment slots are now available!");
    ("attachments", JList [
       JObj [
         ("color", JStr "good");
         ("fields", JList [
            JObj [("title", JStr "Check Time");
                  ("value", JStr timestamp);
                  ("short", JBool true)];
            JObj [("title", JStr "Booking Site");
                  ("value", JStr ("<" ++ CLINIC_URL cfg ++ "|Book here>"));
                  ("short", JBool false)]])]])].

Definition send_slack_notification_body (timestamp : string)
           (reply : post_reply) : M unit unit unit :=
  try_except
    (status_code <- requests_post (SLACK_WEBHOOK_URL cfg)
                      (message timestamp) reply ;;
     if (status_code =? 200)%Z then
       log INFO "Slack notification sent successfully"
     else
       log ERROR ("Failed to send Slack notification: " ++ str_Z status_code))
    (fun e =>
       if is_Exception e
       then Some (log ERROR ("Error occurred while sending Slack notification: "
                             ++ str_exn e))
       else None).

Definition send_slack_notification (timestamp : string) (reply : post_reply)
  : outcome unit * trace :=
  run_body (send_slack_notification_body timestamp reply) tt tt.

End Notifier.

(* ------------------------------------------------------------------ *)
(** * [monitor_bookings] *)

Section Monitor.
Variable cfg : config.

(** What the outside world answers during one iteration of the loop.
    The readings of the clock are rational numbers of seconds: the
    script's floating-point readings are dense, not whole seconds, and
    only their order and their differences are used here; a difference of
    two readings is taken exactly.  [interrupted] says that the process
    receives SIGINT while the iteration waits. *)
Record poll : Type := {
  clock : Q;                    (* time.time() *)
  sessions : nat -> session;    (* the browser, attempt by attempt *)
  timestamp : string;           (* datetime.now().strftime(...) *)
  reply : post_reply;           (* the webhook's answer, if asked *)
  interrupted : bool            (* SIGINT during the wait *)
}.

(** [time.time()] *)
Definition time_time {L R : Type} (p : poll) : M L R Q :=
  emit (Clock (clock p)) ;; ret (clock p).

(** [x > n] for a reading of the clock or a difference of readings [x] and
    an integer [n]. *)
Definition Qgtb (x : Q) (n : Z) : bool := negb (Qle_bool x (inject_Z n)).

(** An integer number of seconds too large for a float: [asyncio.sleep]
    adds a positive delay to the float time of the event loop, which
    converts it and raises [OverflowError] from [2**1024 - 2**970] on (the
    least integer that does not round to a finite double). *)
Definition float_overflows (seconds : Z) : bool :=
  (2 ^ 1024 - 2 ^ 970 <=? seconds)%Z.

(** [await asyncio.sleep(seconds)] inside the coroutine that
    [asyncio.run] runs, with [interrupt] saying whether SIGINT arrives
    during the wait.  On SIGINT [asyncio.run] cancels the task of the
    coroutine: the [await] raises [CancelledError], not
    [KeyboardInterrupt]. *)
Definition asyncio_sleep {L R : Type} (seconds : Z) (interrupt : bool)
  : M L R unit :=
  if float_overflows seconds then
    raise (OverflowError "int too large to convert to float")
  else
    emit (Sleep seconds) ;;
    when interrupt (raise CancelledError).

(** The body of [while True:].  The local variable is
    [last_notification_time]. *)
Definition monitor_iteration (p : poll) : M Q unit unit :=
  try_except
    (current_time <- time_time p ;;
     (* Check availability *)
     has_availability <- call (check_availability cfg 3 (sessions p)) ;;
     when has_availability
       (last_notification_time <- get ;;
        (* Only notify if more than specified interval has passed since
           last notification *)
        if Qgtb (current_time - last_notification_time)
                (NOTIFICATION_INTERVAL cfg)
        then
          call (send_slack_notification cfg (timestamp p) (reply p)) ;;
          put current_time
        else
          log INFO "Slots are available but skipping notification due to interval") ;;
     (* Wait until next check *)
     asyncio_sleep (CHECK_INTERVAL cfg) (interrupted p))
    (fun e =>
       if is_KeyboardInterrupt e then Some (
         log INFO "Stopping monitoring" ;;
         break_)
       else if is_Exception e then Some (
         log ERROR ("Unexpected error occurred: " ++ str_exn e) ;;
         (* Wait 1 minute before retry on error *)
         asyncio_sleep 60 (interrupted p))
       else None).

Definition monitor_bookings_body (fuel : nat) (polls : nat -> poll)
  : M Q unit unit :=
  log INFO "Starting booking monitoring..." ;;
  put 0%Q ;;
  while_true fuel 0 (fun k => monitor_iteration (polls k)).

(** [monitor_bookings()], its loop unrolled at most [fuel] times;
    [polls k] is what the world answers during iteration [k]. *)
Definition monitor_bookings (fuel : nat) (polls : nat -> poll)
  : outcome unit * trace :=
  run_body (monitor_bookings_body fuel polls) 0%Q tt.

End Monitor.

(* ------------------------------------------------------------------ *)
(** * [main] *)

Section Main.
Variable urlparse : string -> parse_result + string.
Variable cfg : config.

(** The line feed of ["\nRequired environment variables:"]. *)
Definition nl : string := String (ascii_of_nat 10) EmptyString.

(** The usage summary [main] prints after the error. *)
Definition print_usage {L R : Type} : M L R unit :=
  print (nl ++ "Required environment variables:") ;;
  print "- SLACK_WEBHOOK_URL: Your Slack webhook URL" ;;
  print "- CLINIC_URL: Clinic booking URL (uses default if not set)" ;;
  print (nl ++ "Optional environment variables:") ;;
  print "- CHECK_INTERVAL: Check interval in seconds (default: 600)" ;;
  print "- NOTIFICATION_INTERVAL: Minimum time between notifications in seconds (default: 1800)".

(** [asyncio.run(coro)]: the result of the coroutine, or the exception it
    lets through; when SIGINT has cancelled the coroutine, which ends with
    [CancelledError], [asyncio.run] raises [KeyboardInterrupt] in its
    caller. *)
Definition asyncio_run {R : Type} (coro : outcome R * trace)
  : outcome R * trace :=
  match coro with
  | (Raises CancelledError, t) => (Raises KeyboardInterrupt, t)
  | other => other
  end.

Definition main_body (fuel : nat) (polls : nat -> poll) : M unit Z unit :=
  try_except
    (* Validate environment variables *)
    (call (validate_environment urlparse cfg) ;;
     (* Start monitoring asynchronously *)
     call (asyncio_run (monitor_bookings cfg fuel polls)))
    (fun e =>
       if is_ValueError e then Some (
         log ERROR ("Configuration error: " ++ str_exn e) ;;
         print ("Error: " ++ str_exn e) ;;
         print_usage ;;
         return_ 1%Z)
       else if is_Exception e then Some (
         log ERROR ("Unexpected error in main: " ++ str_exn e) ;;
         return_ 1%Z)
       else None) ;;
  return_ 0%Z.

(** [main()] *)
Definition main (fuel : nat) (polls : nat -> poll) : outcome Z * trace :=
  run_body (main_body fuel polls) tt 0%Z.

End Main.

(** [exit(main())]: the exit status of the process, once it ends.  The
    value [main] returns is the status; a [KeyboardInterrupt] that [main]
    lets through ends the interpreter with a traceback and the status of a
    process stopped by SIGINT, 130; any other exception ends it with a
    traceback and status 1. *)
Definition exit_status (o : outcome Z) : option Z :=
  match o with
  | Returns code => Some code
  | Raises KeyboardInterrupt => Some 130%Z
  | Raises _ => Some 1%Z
  | StillRunning => None
  end.

(* ------------------------------------------------------------------ *)
(** * Vocabulary of the specification *)

(** The calendar-day groups of a rendered document, in document order. *)
Definition day_groups (doc : element) : list element :=
  page_query_selector_all doc day_flex_col_selector.

(** A sub-element marked with an availability tier: a day cell whose
    capacity is "enough" or "few". *)
Definition marked (e : element) : bool :=
  has_class e "day-cell"
  && (has_class e "capacity-enough" || has_class e "capacity-few").

(** The first day group contains a marked sub-element. *)
Definition available (doc : element) : bool :=
  match day_groups doc with
  | today :: _ => existsb marked (descendants today)
  | [] => false
  end.

(** The browser calls an attempt makes when nothing goes wrong, in order;
    the last one is leaving the [async with] block.  The two calls of
    [browser.close()] are not among them. *)
Definition attempt_sites (doc : element) : list site :=
  [AtStart; AtLaunch; AtNewPage; AtSetDefaultTimeout; AtGoto;
   AtWaitForTimeout; AtQueryDays]
  ++ match day_groups doc with
     | [] => []
     | [_] => [AtQueryToday]
     | _ :: _ :: _ => [AtQueryToday; AtQueryTomorrow]
     end
  ++ [AtStop].

Definition succeeds_at (s : session) (x : site) : bool :=
  match failure s x with
  | None => true
  | Some _ => false
  end.

(** A successful page load: none of the calls of the attempt raises. *)
Definition attempt_succeeds (s : session) : bool :=
  forallb (succeeds_at s) (attempt_sites (rendered s)).

(** The attempt gets as far as the navigation, and the navigation fails. *)
Definition navigation_fails (s : session) : bool :=
  forallb (succeeds_at s) [AtStart; AtLaunch; AtNewPage; AtSetDefaultTimeout]
  && negb (succeeds_at s AtGoto).

(** The value [check_availability] is to return: what the first successful
    attempt finds, "unavailable" when no attempt succeeds. *)
Definition expected_availability (max_retries : nat) (sessions : nat -> session)
  : bool :=
  match List.find (fun k => attempt_succeeds (sessions k)) (seq 0 max_retries) with
  | Some k => available (rendered (sessions k))
  | None => false
  end.

(** The delays a trace waits for, in order. *)
Fixpoint sleeps (t : trace) : list Z :=
  match t with
  | [] => []
  | Sleep n :: r => n :: sleeps r
  | _ :: r => sleeps r
  end.

(** The queries a trace sends to the page, in order. *)
Fixpoint queries (t : trace) : list (query_target * selector) :=
  match t with
  | [] => []
  | Browser (QuerySelectorAll on sel) _ :: r => (on, sel) :: queries r
  | _ :: r => queries r
  end.

(** Every browser that was launched is closed: reading the trace from a
    point where a browser is open or not ([open]), a launch happens only
    when none is open, and no browser is open at the end.  [Close] counts
    whether or not the call raised. *)
Fixpoint released (open : bool) (t : trace) : bool :=
  match t with
  | [] => negb open
  | Browser Launch None :: r => negb open && released true r
  | Browser Close _ :: r => released false r
  | _ :: r => released open r
  end.

(** The number of times the webhook is posted to. *)
Fixpoint posts (t : trace) : nat :=
  match t with
  | [] => 0
  | HttpPost _ _ :: r => S (posts r)
  | _ :: r => posts r
  end.

(** An error line is logged. *)
Definition logs_error (t : trace) : bool :=
  existsb (fun e => match e with Log ERROR _ => true | _ => false end) t.

(** The lines printed, in order. *)
Fixpoint printed (t : trace) : list string :=
  match t with
  | [] => []
  | Print line :: r => line :: printed r
  | _ :: r => printed r
  end.

(** The clock readings at which the webhook is posted to: each post is
    stamped with the latest reading of [time.time()] before it ([now] when
    there is none). *)
Fixpoint notification_times (now : Q) (t : trace) : list Q :=
  match t with
  | [] => []
  | Clock c :: r => notification_times c r
  | HttpPost _ _ :: r => now :: notification_times now r
  | _ :: r => notification_times now r
  end.

(** Each time of the list is more than [gap] after the one before it, the
    first one more than [gap] after [last]. *)
Fixpoint spaced (gap : Z) (last : Q) (times : list Q) : Prop :=
  match times with
  | [] => True
  | t :: r => (t - last > inject_Z gap)%Q /\ spaced gap t r
  end.

(** The webhook failed: it answered outside the 2xx range or the
    transport raised. *)
Definition post_failed (r : post_reply) : bool :=
  match r with
  | Status code => negb ((200 <=? code)%Z && (code <=? 299)%Z)
  | TransportError _ => true
  end.

(** Events a browser check can produce. *)
Definition checker_event (e : event) : bool :=
  match e with
  | Log _ _ | Sleep _ | Browser _ _ => true
  | _ => false
  end.

(** What the today query of the script finds on a document. *)
Definition found_today (doc : element) : bool :=
  match day_groups doc with
  | today :: _ => truthy_list (element_query_selector_all today slot_selector)
  | [] => false
  end.

(** How an attempt completes.  [retry] is [attempt < max_retries - 1]: a
    successful attempt returns what it found; a failed one goes on to the
    next attempt when there is one left and returns [False] otherwise. *)
Definition attempt_completion (retry : bool) (s : session)
  : completion bool unit :=
  if attempt_succeeds s then Return (found_today (rendered s))
  else if retry then
    if navigation_fails s && succeeds_at s AtCloseBeforeRetry
       && succeeds_at s AtStop
    then Continue else Normal tt
  else Return false.

(** The delays of an attempt: 5 seconds after a failed navigation, 10
    seconds after any other error of an attempt that is not the last. *)
Definition attempt_sleeps (retry : bool) (s : session) : list Z :=
  if attempt_succeeds s then []
  else if retry then
    if navigation_fails s then
      if succeeds_at s AtCloseBeforeRetry
      then 5%Z :: (if succeeds_at s AtStop then [] else [10%Z])
      else [10%Z]
    else [10%Z]
  else [].

(** The queries of an attempt that goes through. *)
Definition expected_queries (doc : element)
  : list (query_target * selector) :=
  (OnPage, day_flex_col_selector)
  :: match day_groups doc with
     | [] => []
     | [today] => [(OnElement today, slot_selector)]
     | today :: tomorrow :: _ =>
         [(OnElement today, slot_selector);
          (OnElement tomorrow, slot_selector)]
     end.

(** The usage summary, line by line as [print] receives it. *)
Definition usage_lines : list string := [
  (nl ++ "Required environment variables:")%string;
  "- SLACK_WEBHOOK_URL: Your Slack webhook URL";
  "- CLINIC_URL: Clinic booking URL (uses default if not set)";
  (nl ++ "Optional environment variables:")%string;
  "- CHECK_INTERVAL: Check interval in seconds (default: 600)";
  "- NOTIFICATION_INTERVAL: Minimum time between notifications in seconds (default: 1800)"
].

(* ------------------------------------------------------------------ *)
(** * Sample inputs *)

Module Sample.

(** A configuration the validator accepts, with the defaults of the two
    intervals. *)
Definition cfg : config := {|
  CLINIC_URL := "https://clinic.example/booking";
  SLACK_WEBHOOK_URL := "https://hooks.slack.com/services/T0/B0/X";
  CHECK_INTERVAL := 600;
  NOTIFICATION_INTERVAL := 1800
|}.

(** The same webhook with its port written out. *)
Definition cfg_with_port : config := {|
  CLINIC_URL := "https://clinic.example/booking";
  SLACK_WEBHOOK_URL := "https://hooks.slack.com:443/services/T0/B0/X";
  CHECK_INTERVAL := 600;
  NOTIFICATION_INTERVAL := 1800
|}.

(** A webhook on another host, with [slack.com] where the port goes. *)
Definition cfg_port_text : config := {|
  CLINIC_URL := "https://clinic.example/booking";
  SLACK_WEBHOOK_URL := "https://evil.example:slack.com/hook";
  CHECK_INTERVAL := 600;
  NOTIFICATION_INTERVAL := 1800
|}.

(** A webhook that is not a URL. *)
Definition cfg_no_scheme : config := {|
  CLINIC_URL := "https://clinic.example/booking";
  SLACK_WEBHOOK_URL := "hooks.slack.com/services/T0/B0/X";
  CHECK_INTERVAL := 600;
  NOTIFICATION_INTERVAL := 1800
|}.

Definition cell (classes : list string) : element := Element classes [].
Definition day (cells : list element) : element :=
  Element ["day-flex-col"] cells.
Definition calendar (days : list element) : element :=
  Element ["calendar"] days.

Definition free_day : element :=
  day [cell ["day-cell"; "capacity-none"]; cell ["day-cell"; "capacity-few"]].
Definition full_day : element :=
  day [cell ["day-cell"; "capacity-none"]].
Definition other_day : element :=
  day [cell ["day-cell"; "capacity-enough"]].

(** No call raises. *)
Definition all_fine : site -> option string := fun _ => None.

(** The navigation times out. *)
Definition goto_times_out : site -> option string :=
  fun x => match x with AtGoto => Some "Timeout 30000ms exceeded" | _ => None end.

(** The page is gone when the day groups are asked for. *)
Definition page_crashes : site -> option string :=
  fun x => match x with AtQueryDays => Some "Target closed" | _ => None end.

(** Closing the browser raises. *)
Definition close_raises : site -> option string :=
  fun x => match x with
           | AtCloseFinally => Some "Connection closed"
           | _ => None
           end.

(** The inspection of tomorrow's column raises. *)
Definition tomorrow_raises : site -> option string :=
  fun x => match x with
           | AtQueryTomorrow => Some "Execution context was destroyed"
           | _ => None
           end.

Definition open_today : session :=
  {| failure := all_fine; rendered := calendar [free_day; full_day] |}.
Definition open_today_only : session :=
  {| failure := all_fine; rendered := calendar [free_day] |}.
Definition open_today_other_tomorrow : session :=
  {| failure := all_fine; rendered := calendar [free_day; other_day] |}.
Definition full_today : session :=
  {| failure := all_fine; rendered := calendar [full_day; other_day] |}.
Definition no_calendar : session :=
  {| failure := all_fine; rendered := calendar [] |}.
Definition unreachable : session :=
  {| failure := goto_times_out; rendered := calendar [] |}.
Definition crashing : session :=
  {| failure := page_crashes; rendered := calendar [free_day] |}.
Definition close_fails : session :=
  {| failure := close_raises; rendered := calendar [free_day; full_day] |}.

(** The navigation fails twice, then the page loads. *)
Definition third_time_lucky (attempt : nat) : session :=
  match attempt with
  | 0 | 1 => unreachable
  | _ => open_today
  end.

(** A poll that finds a free slot while the webhook answers 500. *)
Definition poll_webhook_down : poll := {|
  clock := 1700000000;
  sessions := fun _ => open_today;
  timestamp := "2023-11-14 22:13:20";
  reply := Status 500;
  interrupted := false
|}.

(** A poll that finds a free slot and a working webhook. *)
Definition poll_free (now : Q) : poll := {|
  clock := now;
  sessions := fun _ => open_today;
  timestamp := "2023-11-14 22:13:20";
  reply := Status 200;
  interrupted := false
|}.

(** A poll that finds nothing and is interrupted while it sleeps. *)
Definition poll_stopped : poll := {|
  clock := 1700003000;
  sessions := fun _ => full_today;
  timestamp := "2023-11-14 23:03:20";
  reply := Status 200;
  interrupted := true
|}.

(** Free slots at every poll, ten minutes apart; the process is
    interrupted during the sixth, which finds none. *)
Definition polls (k : nat) : poll :=
  match k with
  | 5 => poll_stopped
  | _ => poll_free (inject_Z (1700000000 + 600 * Z.of_nat k))
  end.

End Sample.

(* ------------------------------------------------------------------ *)
(** * Further vocabulary: what a trace contains *)

(** The number of attempts a trace enters, counted by the entries into
    [async with async_playwright()]. *)
Fixpoint starts (t : trace) : nat :=
  match t with
  | [] => 0
  | Browser PlaywrightStart _ :: r => S (starts r)
  | _ :: r => starts r
  end.

(** The number of calls of [browser.close()]. *)
Fixpoint closes (t : trace) : nat :=
  match t with
  | [] => 0
  | Browser Close _ :: r => S (closes r)
  | _ :: r => closes r
  end.

(** The navigations of a trace: address and timeout. *)
Fixpoint gotos (t : trace) : list (string * Z) :=
  match t with
  | [] => []
  | Browser (Goto url timeout) _ :: r => (url, timeout) :: gotos r
  | _ :: r => gotos r
  end.

(** The addresses a trace posts to. *)
Fixpoint post_urls (t : trace) : list string :=
  match t with
  | [] => []
  | HttpPost url _ :: r => url :: post_urls r
  | _ :: r => post_urls r
  end.

(** The number of readings of [time.time()]. *)
Fixpoint clock_readings (t : trace) : nat :=
  match t with
  | [] => 0
  | Clock _ :: r => S (clock_readings r)
  | _ :: r => clock_readings r
  end.

(** The log lines of a trace. *)
Fixpoint logged (t : trace) : list (level * string) :=
  match t with
  | [] => []
  | Log lv msg :: r => (lv, msg) :: logged r
  | _ :: r => logged r
  end.

(** The seconds a trace waits in all. *)
Definition total_sleep (t : trace) : Z := fold_right Z.add 0%Z (sleeps t).

(** The trace of attempt [k] of a check. *)
Definition attempt_trace (cfg : config) (max_retries k : nat) (s : session)
  : trace :=
  snd (check_attempt cfg max_retries k s None).

(** The number of attempts made out of [n], starting with attempt [a]: the
    attempts up to the first one that goes through, all of them when none
    does. *)
Fixpoint attempts_run (succeeds : nat -> bool) (a n : nat) : nat :=
  match n with
  | 0 => 0
  | S n' => if succeeds a then 1 else S (attempts_run succeeds (S a) n')
  end.

Definition attempts_made (max_retries : nat) (sessions : nat -> session)
  : nat :=
  attempts_run (fun k => attempt_succeeds (sessions k)) 0 max_retries.

(** The browser of the attempt gets launched. *)
Definition launched (s : session) : bool :=
  succeeds_at s AtStart && succeeds_at s AtLaunch.

(** The calls of [browser.close()] of an attempt: none without a browser,
    two when a failed navigation is retried (one in the handler, one in the
    [finally] block), one otherwise. *)
Definition attempt_closes (retry : bool) (s : session) : nat :=
  if launched s then
    if retry && navigation_fails s then 2 else 1
  else 0.

(** The number of iterations the loop makes out of [fuel], starting with
    iteration [k]: up to and including the first interrupted one. *)
Fixpoint polls_run (stops : nat -> bool) (k fuel : nat) : nat :=
  match fuel with
  | 0 => 0
  | S fuel' => if stops k then 1 else S (polls_run stops (S k) fuel')
  end.

(** The wait that ends an iteration of the monitor loop: [CHECK_INTERVAL]
    seconds, or, when [asyncio.sleep] refuses [CHECK_INTERVAL] with
    [OverflowError], the line of the fallback handler and its 60
    seconds. *)
Definition iteration_wait (cfg : config) : trace :=
  if float_overflows (CHECK_INTERVAL cfg)
  then [Log ERROR
          "Unexpected error occurred: int too large to convert to float";
        Sleep 60]
  else [Sleep (CHECK_INTERVAL cfg)].

(** ** The messages of the validator *)

Section ValidatorMessages.
Variable urlparse : string -> parse_result + string.

(** What is wrong with the URL of the variable [name], if anything. *)
Definition url_problem (name url : string) (must_be_slack : bool)
  : option string :=
  if negb (truthy_str url) then
    Some (name ++ " environment variable is required")%string
  else
    match urlparse url with
    | inr msg => Some ("Invalid " ++ name ++ ": " ++ msg)%string
    | inl p =>
        if negb (truthy_str (scheme p) && truthy_str (netloc p)) then
          Some ("Invalid " ++ name ++ ": " ++ name
                ++ " must be a valid URL")%string
        else if must_be_slack && negb (endswith (netloc p) "slack.com") then
          Some ("Invalid " ++ name ++ ": " ++ name
                ++ " must be a Slack webhook URL")%string
        else None
    end.

(** The message of the error the validator raises: the problem of the
    webhook URL first, then that of the clinic URL. *)
Definition validation_message (cfg : config) : option string :=
  match url_problem "SLACK_WEBHOOK_URL" (SLACK_WEBHOOK_URL cfg) true with
  | Some msg => Some msg
  | None => url_problem "CLINIC_URL" (CLINIC_URL cfg) false
  end.

End ValidatorMessages.

(** ** More sample inputs *)

Module Sample2.

(** Both URLs are missing, and the intervals are not positive. *)
Definition cfg_empty : config := {|
  CLINIC_URL := "";
  SLACK_WEBHOOK_URL := "";
  CHECK_INTERVAL := 0;
  NOTIFICATION_INTERVAL := -1
|}.

(** The sample configuration with other intervals. *)
Definition cfg_fast : config := {|
  CLINIC_URL := CLINIC_URL Sample.cfg;
  SLACK_WEBHOOK_URL := SLACK_WEBHOOK_URL Sample.cfg;
  CHECK_INTERVAL := 0;
  NOTIFICATION_INTERVAL := -1
|}.

(** A webhook that is not on Slack, with and without a clinic URL. *)
Definition cfg_elsewhere : config := {|
  CLINIC_URL := "https://clinic.example/booking";
  SLACK_WEBHOOK_URL := "https://example.org/hook";
  CHECK_INTERVAL := 600;
  NOTIFICATION_INTERVAL := 1800
|}.

Definition cfg_elsewhere_no_clinic : config := {|
  CLINIC_URL := "";
  SLACK_WEBHOOK_URL := "https://example.org/hook";
  CHECK_INTERVAL := 600;
  NOTIFICATION_INTERVAL := 1800
|}.

(** A poll five minutes after [Sample.poll_webhook_down], with free slots
    and a webhook that works again. *)
Definition poll_soon_after : poll := {|
  clock := 1700000300;
  sessions := fun _ => Sample.open_today;
  timestamp := "2023-11-14 22:18:20";
  reply := Status 200;
  interrupted := false
|}.

End Sample2.

(* ------------------------------------------------------------------ *)
(** * Lists, selectors and traces *)

#[local] Arguments String.append : simpl never.
#[local] Arguments str_nat : simpl never.
#[local] Arguments str_Z : simpl never.

Lemma truthy_filter {A : Type} (p : A -> bool) (l : list A) :
  truthy_list (filter p l) = existsb p l.
Proof.
  induction l as [|x l IH]; simpl; [reflexivity|].
  destruct (p x); simpl; [reflexivity | exact IH].
Qed.

Lemma matches_slot_selector (e : element) :
  matches slot_selector e = marked e.
Proof.
  unfold matches, slot_selector, marked; simpl.
  destruct (has_class e "day-cell"), (has_class e "capacity-enough"),
    (has_class e "capacity-few"); reflexivity.
Qed.

Lemma existsb_matches_marked (l : list element) :
  existsb (matches slot_selector) l = existsb marked l.
Proof.
  induction l as [|x l IH]; cbn [existsb]; [reflexivity|].
  now rewrite matches_slot_selector, IH.
Qed.

Lemma found_today_available (doc : element) :
  found_today doc = available doc.
Proof.
  unfold found_today, available, element_query_selector_all.
  destruct (day_groups doc) as [|today rest]; [reflexivity|].
  now rewrite truthy_filter, existsb_matches_marked.
Qed.

Lemma released_app (o : bool) (t1 t2 : trace) :
  released o t1 = true -> released o (t1 ++ t2) = released false t2.
Proof.
  revert o; induction t1 as [|e t1 IH]; intros o H; simpl in *.
  - destruct o; [discriminate | reflexivity].
  - destruct e as [| | | |c err|]; try (apply IH; exact H).
    destruct c; try (apply IH; exact H).
    destruct err; [apply IH; exact H|].
    apply andb_true_iff in H as [Ho H].
    rewrite Ho; simpl. apply IH; exact H.
Qed.

Lemma released_app_true (t1 t2 : trace) :
  released false t1 = true -> released false t2 = true ->
  released false (t1 ++ t2) = true.
Proof. intros H1 H2. rewrite (released_app _ _ _ H1). exact H2. Qed.

Lemma posts_checker (t : trace) :
  forallb checker_event t = true -> posts t = 0.
Proof.
  induction t as [|e t IH]; simpl; [reflexivity|].
  intros H; apply andb_true_iff in H as [He Ht].
  destruct e; try discriminate; auto.
Qed.

Lemma posts_app (t1 t2 : trace) : posts (t1 ++ t2) = posts t1 + posts t2.
Proof.
  induction t1 as [|e t1 IH]; simpl; [reflexivity|].
  destruct e; simpl; rewrite IH; reflexivity.
Qed.

Lemma notification_times_checker (now : Q) (t rest : trace) :
  forallb checker_event t = true ->
  notification_times now (t ++ rest) = notification_times now rest.
Proof.
  induction t as [|e t IH]; simpl; [reflexivity|].
  intros H; apply andb_true_iff in H as [He Ht].
  destruct e; try discriminate; auto.
Qed.

(* ------------------------------------------------------------------ *)
(** * One attempt of [check_availability] *)

(** Evaluation of the blocks of the script, up to the answers of the
    outside world. *)
Ltac run :=
  cbv beta iota zeta delta
    [check_attempt async_with try_finally try_except bind playwright
     query_selector_all when put get emit raise ret log sleep return_
     continue_ py_index app is_Exception nth_error truthy_list negb andb orb
     attempt_succeeds navigation_fails attempt_sites succeeds_at forallb
     found_today day_groups List.length Nat.ltb Nat.leb firstn
     attempt_completion attempt_sleeps expected_queries
     sleeps queries released checker_event].

Ltac split_on s x :=
  match goal with |- context [failure s x] => destruct (failure s x) eqn:? end.

(** The next answer the attempt depends on, in the order of the source. *)
Ltac attempt_step s :=
  first
    [ split_on s AtStart | split_on s AtLaunch | split_on s AtNewPage
    | split_on s AtSetDefaultTimeout | split_on s AtGoto
    | split_on s AtCloseBeforeRetry
    | split_on s AtWaitForTimeout | split_on s AtQueryDays
    | match goal with
      | |- context [page_query_selector_all ?d ?sel] =>
          destruct (page_query_selector_all d sel) as [|? [|? ?]] eqn:?
      end
    | split_on s AtQueryToday | split_on s AtQueryTomorrow
    | match goal with
      | |- context [element_query_selector_all ?d ?sel] =>
          destruct (element_query_selector_all d sel) eqn:?
      end
    | split_on s AtStop | split_on s AtCloseFinally ].

Ltac attempt_cases s := run; repeat (attempt_step s; run).

(** Every path through an attempt: how it completes, that it leaves no
    browser open, what it waits for and what it asks the page. *)
Lemma check_attempt_facts (cfg : config) (m a : nat) (s : session)
      (l : check_locals) :
  exists l' t,
    check_attempt cfg m a s l = (attempt_completion (a <? m - 1) s, l', t)
    /\ released false t = true
    /\ forallb checker_event t = true
    /\ sleeps t = attempt_sleeps (a <? m - 1) s
    /\ firstn (List.length (queries t)) (expected_queries (rendered s))
       = queries t
    /\ (attempt_succeeds s = true -> queries t = expected_queries (rendered s)).
Proof.
  unfold check_attempt.
  destruct (a <? m - 1).
  all: attempt_cases s.
  all: eexists; eexists; repeat split; try reflexivity; discriminate.
Qed.

(* ------------------------------------------------------------------ *)
(** * The retry loop *)

Section RetryLoop.
Variable cfg : config.
Variable m : nat.
Variable sessions : nat -> session.

Let succeeds (k : nat) : bool := attempt_succeeds (sessions k).

Lemma retry_loop (n : nat) : forall (a : nat) (l : check_locals),
  a + n = m ->
  exists l' t,
    for_each (seq a n) (fun k => check_attempt cfg m k (sessions k)) l
    = (match List.find succeeds (seq a n) with
       | Some k => Return (found_today (rendered (sessions k)))
       | None => match n with 0 => Normal tt | S _ => Return false end
       end, l', t)
    /\ released false t = true
    /\ forallb checker_event t = true.
Proof.
  induction n as [|n IH]; intros a l Ham.
  - exists l, []. simpl. repeat split; reflexivity.
  - destruct (check_attempt_facts cfg m a (sessions a) l)
      as (l1 & t1 & E & Hrel & Hev & _).
    cbn [seq for_each List.find]. rewrite E.
    unfold attempt_completion, succeeds.
    destruct (attempt_succeeds (sessions a)).
    + exists l1, t1. repeat split; auto.
    + destruct (a <? m - 1) eqn:Hlt.
      * destruct (IH (S a) l1 ltac:(lia)) as (l2 & t2 & E2 & Hrel2 & Hev2).
        exists l2, (t1 ++ t2).
        repeat split.
        -- apply Nat.ltb_lt in Hlt.
           destruct n as [|n']; [lia|].
           destruct (navigation_fails (sessions a)
                     && succeeds_at (sessions a) AtCloseBeforeRetry
                     && succeeds_at (sessions a) AtStop);
             rewrite E2; reflexivity.
        -- now apply released_app_true.
        -- rewrite forallb_app, Hev, Hev2; reflexivity.
      * apply Nat.ltb_ge in Hlt.
        assert (n = 0) by lia. subst n.
        exists l1, t1. simpl. repeat split; auto.
Qed.

(** [check_availability] returns what the first successful attempt
    finds, and [False] when none of the attempts succeeds. *)
Lemma check_availability_facts :
  exists t,
    check_availability cfg m sessions
    = (Returns (expected_availability m sessions), t)
    /\ released false t = true
    /\ forallb checker_event t = true.
Proof.
  destruct (retry_loop m 0 None eq_refl) as (l' & t & E & Hrel & Hev).
  unfold check_availability, check_availability_body, run_body, bind,
    expected_availability.
  rewrite E. fold succeeds.
  destruct (List.find succeeds (seq 0 m)) as [k|].
  - exists t. rewrite found_today_available. repeat split; auto.
  - destruct m; [exists (t ++ []); cbn; rewrite app_nil_r | exists t];
      repeat split; auto.
Qed.

End RetryLoop.

(* ------------------------------------------------------------------ *)
(** * The availability checker *)

Lemma find_seq_first (f : nat -> bool) (k : nat) : forall (n a : nat),
  a <= k < a + n ->
  (forall j, a <= j < k -> f j = false) ->
  f k = true ->
  List.find f (seq a n) = Some k.
Proof.
  induction n as [|n IH]; intros a Hk Hbefore Hfk; [lia|].
  cbn [seq List.find].
  destruct (Nat.eq_dec a k) as [->|Hne].
  - now rewrite Hfk.
  - rewrite (Hbefore a) by lia.
    apply IH; [lia | intros j Hj; apply Hbefore; lia | exact Hfk].
Qed.

Lemma find_seq_none (f : nat -> bool) : forall (n a : nat),
  (forall j, a <= j < a + n -> f j = false) ->
  List.find f (seq a n) = None.
Proof.
  induction n as [|n IH]; intros a Hall; [reflexivity|].
  cbn [seq List.find].
  rewrite (Hall a) by lia.
  apply IH. intros j Hj. apply Hall. lia.
Qed.

Lemma find_seq_ext (f g : nat -> bool) : forall (n a : nat),
  (forall j, f j = g j) ->
  List.find f (seq a n) = List.find g (seq a n).
Proof.
  induction n as [|n IH]; intros a Hfg; [reflexivity|].
  cbn [seq List.find]. rewrite Hfg, (IH (S a) Hfg). reflexivity.
Qed.

Lemma available_spec (doc : element) :
  available doc = true <->
  exists today rest e,
    day_groups doc = today :: rest /\ In e (descendants today)
    /\ marked e = true.
Proof.
  unfold available. split.
  - destruct (day_groups doc) as [|today rest]; [discriminate|].
    intros H. apply existsb_exists in H as (e & Hin & Hm).
    now exists today, rest, e.
  - intros (today & rest & e & -> & Hin & Hm).
    apply existsb_exists. now exists e.
Qed.

(** The result of [check_availability] in the three situations of its
    retry loop. *)
Lemma check_availability_first_success (cfg : config) (m : nat)
      (sessions : nat -> session) (k : nat) :
  k < m ->
  (forall j, j < k -> attempt_succeeds (sessions j) = false) ->
  attempt_succeeds (sessions k) = true ->
  fst (check_availability cfg m sessions)
  = Returns (available (rendered (sessions k))).
Proof.
  intros Hk Hbefore Hsucc.
  destruct (check_availability_facts cfg m sessions) as (t & E & _).
  rewrite E. cbn [fst]. unfold expected_availability.
  rewrite (find_seq_first _ k); [reflexivity | lia | | exact Hsucc].
  intros j Hj. apply Hbefore. lia.
Qed.

Lemma check_availability_no_success (cfg : config) (m : nat)
      (sessions : nat -> session) :
  (forall k, k < m -> attempt_succeeds (sessions k) = false) ->
  fst (check_availability cfg m sessions) = Returns false.
Proof.
  intros Hall.
  destruct (check_availability_facts cfg m sessions) as (t & E & _).
  rewrite E. cbn [fst]. unfold expected_availability.
  rewrite find_seq_none; [reflexivity|].
  intros j Hj. apply Hall. lia.
Qed.

(** C5: on a successful page load the check returns [True] exactly when
    the first day group of the document contains a sub-element marked with
    one of the two tiers, and [False] when there is no day group. *)
Theorem check_availability_reports_today (cfg : config) (m : nat)
        (sessions : nat -> session) (k : nat) :
  k < m ->
  (forall j, j < k -> attempt_succeeds (sessions j) = false) ->
  attempt_succeeds (sessions k) = true ->
  exists b,
    fst (check_availability cfg m sessions) = Returns b
    /\ (b = true <->
        exists today rest e,
          day_groups (rendered (sessions k)) = today :: rest
          /\ In e (descendants today)
          /\ has_class e "day-cell" = true
          /\ (has_class e "capacity-enough" = true
              \/ has_class e "capacity-few" = true))
    /\ (day_groups (rendered (sessions k)) = [] -> b = false).
Proof.
  intros Hk Hbefore Hsucc.
  exists (available (rendered (sessions k))).
  split; [now apply check_availability_first_success|].
  split.
  - rewrite available_spec. unfold marked.
    split; intros (today & rest & e & Hd & Hin & Hm);
      exists today, rest, e; (split; [exact Hd|]); (split; [exact Hin|]).
    + apply andb_true_iff in Hm as [H1 H2].
      apply orb_true_iff in H2. auto.
    + destruct Hm as [H1 H2]. rewrite H1. simpl.
      apply orb_true_iff. exact H2.
  - intros Hnone. unfold available. now rewrite Hnone.
Qed.

(** After two failed navigations the third attempt loads a page whose
    first day has a cell of the "few" tier. *)
Lemma check_availability_reports_today_witness :
  exists b,
    fst (check_availability Sample.cfg 3 Sample.third_time_lucky) = Returns b
    /\ (b = true <->
        exists today rest e,
          day_groups (rendered (Sample.third_time_lucky 2)) = today :: rest
          /\ In e (descendants today)
          /\ has_class e "day-cell" = true
          /\ (has_class e "capacity-enough" = true
              \/ has_class e "capacity-few" = true))
    /\ (day_groups (rendered (Sample.third_time_lucky 2)) = [] -> b = false).
Proof.
  apply (check_availability_reports_today Sample.cfg 3
           Sample.third_time_lucky 2).
  - lia.
  - intros [|[|j]] Hj; [reflexivity | reflexivity | lia].
  - reflexivity.
Defined.

(** Whether an attempt goes through depends on the document only through
    its first day group and through whether a second one exists. *)
Lemma attempt_succeeds_same_today (s1 s2 : session) :
  (forall x, failure s1 x = failure s2 x) ->
  hd_error (day_groups (rendered s1)) = hd_error (day_groups (rendered s2)) ->
  (1 <? List.length (day_groups (rendered s1)))
  = (1 <? List.length (day_groups (rendered s2)))
  \/ failure s1 AtQueryTomorrow = None ->
  attempt_succeeds s1 = attempt_succeeds s2
  /\ available (rendered s1) = available (rendered s2).
Proof.
  intros Hfail Hhd Hsecond.
  unfold attempt_succeeds, attempt_sites, available, succeeds_at.
  destruct (day_groups (rendered s1)) as [|g1 [|t1 r1]],
           (day_groups (rendered s2)) as [|g2 [|t2 r2]];
    simpl in Hhd; try discriminate; try (injection Hhd as ->);
    simpl; rewrite <- !Hfail; split; try reflexivity;
    destruct Hsecond as [Hlen | Hnone]; try discriminate Hlen;
    rewrite Hnone; reflexivity.
Qed.

(** C6: the inspection of the second day group does not change the result.
    Two runs in which the browser fails at the same places, on documents
    with the same first day group whose second groups differ in any way,
    return the same boolean.  (When only one of the documents has a second
    group, this needs the inspection itself not to raise.) *)
Theorem tomorrow_has_no_impact (cfg : config) (m : nat)
        (sessions1 sessions2 : nat -> session) :
  (forall k x, failure (sessions1 k) x = failure (sessions2 k) x) ->
  (forall k, hd_error (day_groups (rendered (sessions1 k)))
             = hd_error (day_groups (rendered (sessions2 k)))) ->
  (forall k, (1 <? List.length (day_groups (rendered (sessions1 k))))
             = (1 <? List.length (day_groups (rendered (sessions2 k))))
             \/ failure (sessions1 k) AtQueryTomorrow = None) ->
  fst (check_availability cfg m sessions1)
  = fst (check_availability cfg m sessions2).
Proof.
  intros Hfail Hhd Hsecond.
  destruct (check_availability_facts cfg m sessions1) as (t1 & E1 & _).
  destruct (check_availability_facts cfg m sessions2) as (t2 & E2 & _).
  rewrite E1, E2. cbn [fst]. f_equal.
  unfold expected_availability.
  assert (Hsame : forall k,
             attempt_succeeds (sessions1 k) = attempt_succeeds (sessions2 k)
             /\ available (rendered (sessions1 k))
                = available (rendered (sessions2 k))).
  { intros k. apply attempt_succeeds_same_today; auto. }
  rewrite (find_seq_ext _ (fun k => attempt_succeeds (sessions2 k)))
    by (intros j; apply Hsame).
  destruct (List.find _ (seq 0 m)) as [k|]; [apply Hsame | reflexivity].
Qed.

(** The same free day today, a full day or a day with free slots tomorrow:
    the result is the same, only the log differs. *)
Lemma tomorrow_has_no_impact_witness :
  fst (check_availability Sample.cfg 3 (fun _ => Sample.open_today))
  = fst (check_availability Sample.cfg 3
           (fun _ => Sample.open_today_other_tomorrow))
  /\ snd (check_availability Sample.cfg 3 (fun _ => Sample.open_today))
     <> snd (check_availability Sample.cfg 3
               (fun _ => Sample.open_today_other_tomorrow)).
Proof.
  split.
  - apply tomorrow_has_no_impact.
    + intros k x; reflexivity.
    + intros k; reflexivity.
    + intros k; left; reflexivity.
  - vm_compute. discriminate.
Defined.

(** The limit of the statement above: when the inspection of tomorrow's
    column raises, a document with a second day group loses the attempt
    that a document without one completes. *)
Example tomorrow_inspection_raising :
  fst (check_availability Sample.cfg 3
         (fun _ => {| failure := Sample.tomorrow_raises;
                      rendered := Sample.calendar [Sample.free_day] |}))
  = Returns true
  /\ fst (check_availability Sample.cfg 3
            (fun _ => {| failure := Sample.tomorrow_raises;
                         rendered := Sample.calendar
                                       [Sample.free_day; Sample.full_day] |}))
     = Returns false.
Proof. split; reflexivity. Qed.

(** An error of the final [browser.close()] does not change how the
    attempt completes. *)
Lemma attempt_completion_ignores_close (retry : bool) (s s' : session) :
  rendered s' = rendered s ->
  (forall x, x <> AtCloseFinally -> failure s' x = failure s x) ->
  attempt_completion retry s' = attempt_completion retry s.
Proof.
  intros Hdoc Hfail.
  unfold attempt_completion, attempt_succeeds, navigation_fails,
    attempt_sites, succeeds_at.
  rewrite Hdoc.
  destruct (day_groups (rendered s)) as [|g [|g' r]]; simpl;
    rewrite !Hfail by discriminate; reflexivity.
Qed.

(** C9: the browser is released on every path.  In the trace of any
    attempt, and of the whole check, every browser that was launched is
    closed before the next one is launched and before the end; the attempt
    never completes by raising, and an error of the final
    [browser.close()] leaves its completion as it was. *)
Theorem browser_always_released (cfg : config) (m a : nat) (s s' : session)
        (l : check_locals) (sessions : nat -> session) :
  (exists c l' t,
      check_attempt cfg m a s l = (c, l', t)
      /\ released false t = true
      /\ forall e, c <> Raise e)
  /\ released false (snd (check_availability cfg m sessions)) = true
  /\ (exists b, fst (check_availability cfg m sessions) = Returns b)
  /\ (rendered s' = rendered s ->
      (forall x, x <> AtCloseFinally -> failure s' x = failure s x) ->
      fst (fst (check_attempt cfg m a s' l))
      = fst (fst (check_attempt cfg m a s l))).
Proof.
  destruct (check_attempt_facts cfg m a s l) as (l1 & t1 & E & Hrel & _).
  destruct (check_availability_facts cfg m sessions) as (t & Ec & Hrelc & _).
  split; [|split; [|split]].
  - exists (attempt_completion (a <? m - 1) s), l1, t1.
    repeat split; [exact E | exact Hrel |].
    intros e. unfold attempt_completion.
    destruct (attempt_succeeds s), (a <? m - 1),
      (navigation_fails s && succeeds_at s AtCloseBeforeRetry
       && succeeds_at s AtStop); discriminate.
  - now rewrite Ec.
  - rewrite Ec. eexists; reflexivity.
  - intros Hdoc Hfail.
    destruct (check_attempt_facts cfg m a s' l) as (l2 & t2 & E' & _).
    rewrite E, E'. cbn [fst].
    now apply attempt_completion_ignores_close.
Qed.

(** The final close raises on a page with free slots: the attempt returns
    what it returns when the close goes well. *)
Lemma browser_always_released_witness :
  fst (fst (check_attempt Sample.cfg 3 0 Sample.close_fails None))
  = fst (fst (check_attempt Sample.cfg 3 0 Sample.open_today None)).
Proof.
  apply (browser_always_released Sample.cfg 3 0 Sample.open_today
           Sample.close_fails None (fun _ => Sample.open_today)).
  - reflexivity.
  - intros x Hx. destruct x; try reflexivity. now elim Hx.
Defined.

Lemma in_firstn {A : Type} (n : nat) (l : list A) (x : A) :
  In x (firstn n l) -> In x l.
Proof.
  intros H. rewrite <- (firstn_skipn n l). apply in_or_app. now left.
Qed.

(** C10: with exactly one day group the attempt does not inspect a second
    one: it queries the page and the first group only and raises no
    [IndexError], where indexing the list at 1 would; when its calls go
    through, it returns what the first group alone shows. *)
Theorem single_day_group_is_guarded (cfg : config) (m a : nat) (s : session)
        (l : check_locals) (today : element) :
  day_groups (rendered s) = [today] ->
  exists c l' t,
    check_attempt cfg m a s l = (c, l', t)
    /\ (forall on sel, In (on, sel) (queries t) ->
                       on = OnPage \/ on = OnElement today)
    /\ (forall msg, c <> Raise (IndexError msg))
    /\ (forall (l0 : check_locals),
           exists msg, @py_index check_locals bool element [today] 1 l0
                       = (Raise (IndexError msg), l0, []))
    /\ (forallb (succeeds_at s)
          [AtStart; AtLaunch; AtNewPage; AtSetDefaultTimeout; AtGoto;
           AtWaitForTimeout; AtQueryDays; AtQueryToday; AtStop] = true ->
        c = Return (existsb marked (descendants today))
        /\ queries t = [(OnPage, day_flex_col_selector);
                        (OnElement today, slot_selector)]).
Proof.
  intros Hone.
  destruct (check_attempt_facts cfg m a s l)
    as (l1 & t1 & E & _ & _ & _ & Hprefix & Hall).
  exists (attempt_completion (a <? m - 1) s), l1, t1.
  assert (Hsites : attempt_succeeds s
                   = forallb (succeeds_at s)
                       [AtStart; AtLaunch; AtNewPage; AtSetDefaultTimeout;
                        AtGoto; AtWaitForTimeout; AtQueryDays; AtQueryToday;
                        AtStop]).
  { unfold attempt_succeeds, attempt_sites. now rewrite Hone. }
  assert (Hexp : expected_queries (rendered s)
                 = [(OnPage, day_flex_col_selector);
                    (OnElement today, slot_selector)]).
  { unfold expected_queries. now rewrite Hone. }
  split; [exact E|]. split; [|split; [|split]].
  - intros on sel Hin. rewrite <- Hprefix, Hexp in Hin.
    apply in_firstn in Hin.
    destruct Hin as [H|[H|[]]]; injection H as <- _; auto.
  - intros msg. unfold attempt_completion.
    destruct (attempt_succeeds s), (a <? m - 1),
      (navigation_fails s && succeeds_at s AtCloseBeforeRetry
       && succeeds_at s AtStop); discriminate.
  - intros l0. eexists. reflexivity.
  - intros Hok. rewrite <- Hsites in Hok. split.
    + unfold attempt_completion. rewrite Hok.
      rewrite found_today_available. unfold available.
      now rewrite Hone.
    + rewrite <- Hexp. now apply Hall.
Qed.

(** A calendar with a single day on which a slot is free. *)
Lemma single_day_group_is_guarded_witness :
  exists c l' t,
    check_attempt Sample.cfg 3 0 Sample.open_today_only None = (c, l', t)
    /\ c = Return true
    /\ queries t = [(OnPage, day_flex_col_selector);
                    (OnElement Sample.free_day, slot_selector)].
Proof.
  destruct (single_day_group_is_guarded Sample.cfg 3 0
              Sample.open_today_only None Sample.free_day eq_refl)
    as (c & l' & t & E & _ & _ & _ & Hok).
  destruct (Hok eq_refl) as [Hc Hq].
  exists c, l', t. repeat split; [exact E | exact Hc | exact Hq].
Defined.

(* ------------------------------------------------------------------ *)
(** * The notifier *)

Lemma send_slack_notification_facts (cfg : config) (timestamp : string)
      (reply : post_reply) :
  exists lv msg,
    send_slack_notification cfg timestamp reply
    = (Returns tt,
       [HttpPost (SLACK_WEBHOOK_URL cfg) (message cfg timestamp); Log lv msg])
    /\ (post_failed reply = true -> lv = ERROR).
Proof.
  unfold send_slack_notification, send_slack_notification_body, run_body,
    try_except, bind, requests_post, emit, log, raise, ret.
  destruct reply as [code|err]; cbn.
  - destruct (code =? 200)%Z eqn:H200; cbn.
    + exists INFO. eexists. split; [reflexivity|].
      apply Z.eqb_eq in H200. subst code. discriminate.
    + exists ERROR. eexists. split; reflexivity.
  - exists ERROR. eexists. split; reflexivity.
Qed.

(** C7: [send_slack_notification] is total.  Whatever the webhook does,
    the call posts once and returns; when the post failed (a reply outside
    the 2xx range, or an error of the transport) an error is logged. *)
Theorem send_slack_notification_total (cfg : config) (timestamp : string)
        (reply : post_reply) :
  fst (send_slack_notification cfg timestamp reply) = Returns tt
  /\ posts (snd (send_slack_notification cfg timestamp reply)) = 1
  /\ (post_failed reply = true ->
      logs_error (snd (send_slack_notification cfg timestamp reply)) = true).
Proof.
  destruct (send_slack_notification_facts cfg timestamp reply)
    as (lv & msg & E & Hfail).
  rewrite E. repeat split.
  intros H. rewrite (Hfail H). reflexivity.
Qed.

(** The webhook answers 500. *)
Lemma send_slack_notification_total_witness :
  fst (send_slack_notification Sample.cfg "2023-11-14 22:13:20" (Status 500))
  = Returns tt
  /\ logs_error (snd (send_slack_notification Sample.cfg
                        "2023-11-14 22:13:20" (Status 500))) = true.
Proof.
  pose proof (send_slack_notification_total Sample.cfg
                "2023-11-14 22:13:20" (Status 500)) as (Hret & _ & Hlog).
  split; [exact Hret | apply Hlog; reflexivity].
Defined.

(* ------------------------------------------------------------------ *)
(** * The validator *)

Lemma validate_environment_facts (urlparse : string -> parse_result + string)
      (cfg : config) :
  if config_rejected urlparse cfg
  then exists msg,
      validate_environment urlparse cfg = (Raises (ValueError msg), [])
  else validate_environment urlparse cfg
       = (Returns tt,
          [Log INFO "Environment variables validated successfully"]).
Proof.
  unfold validate_environment, validate_environment_body, config_rejected,
    well_formed, netloc_on_slack, run_body, py_urlparse, when, try_except,
    bind, raise, ret, log, emit.
  destruct (truthy_str (SLACK_WEBHOOK_URL cfg)); cbn;
    [|eexists; reflexivity].
  destruct (urlparse (SLACK_WEBHOOK_URL cfg)) as [p|err]; cbn;
    [|eexists; reflexivity].
  destruct (truthy_str (scheme p)), (truthy_str (netloc p)); cbn;
    try (eexists; reflexivity).
  destruct (endswith (netloc p) "slack.com"); cbn;
    [|eexists; reflexivity].
  destruct (truthy_str (CLINIC_URL cfg)); cbn;
    [|eexists; reflexivity].
  destruct (urlparse (CLINIC_URL cfg)) as [q|err]; cbn;
    [|eexists; reflexivity].
  destruct (truthy_str (scheme q)), (truthy_str (netloc q)); cbn;
    first [reflexivity | eexists; reflexivity].
Qed.

(** C3, as the script has it: the validator raises a configuration error
    exactly when the webhook URL is empty, is not well formed (it does not
    parse, or its scheme or its network location is missing) or has a
    network location (the host with any user information and port) that
    does not end in [slack.com], or when the clinic URL is empty or not
    well formed; in particular a webhook whose network location does not
    end in [slack.com] is refused.  On success the validator logs one line
    and does nothing else. *)
Theorem validate_environment_contract
        (urlparse : string -> parse_result + string) (cfg : config) :
  config_error (fst (validate_environment urlparse cfg))
  = config_rejected urlparse cfg
  /\ (netloc_on_slack urlparse (SLACK_WEBHOOK_URL cfg) = false ->
      config_error (fst (validate_environment urlparse cfg)) = true)
  /\ (config_rejected urlparse cfg = false ->
      validate_environment urlparse cfg
      = (Returns tt,
         [Log INFO "Environment variables validated successfully"])).
Proof.
  pose proof (validate_environment_facts urlparse cfg) as H.
  assert (Hiff : config_error (fst (validate_environment urlparse cfg))
                 = config_rejected urlparse cfg).
  { destruct (config_rejected urlparse cfg).
    - destruct H as (msg & ->). reflexivity.
    - rewrite H. reflexivity. }
  split; [exact Hiff|]. split.
  - intros Hslack. rewrite Hiff. unfold config_rejected.
    rewrite Hslack. cbn. now rewrite !orb_true_r.
  - intros Hok. now rewrite Hok in H.
Qed.

(** A webhook on [example.org] is refused; the sample configuration is
    accepted. *)
Lemma validate_environment_contract_witness :
  config_error
    (fst (validate_environment Url.urlsplit_ascii
            {| CLINIC_URL := "https://clinic.example/booking";
               SLACK_WEBHOOK_URL := "https://example.org/hook";
               CHECK_INTERVAL := 600;
               NOTIFICATION_INTERVAL := 1800 |})) = true
  /\ validate_environment Url.urlsplit_ascii Sample.cfg
     = (Returns tt, [Log INFO "Environment variables validated successfully"]).
Proof.
  split.
  - apply validate_environment_contract. reflexivity.
  - apply validate_environment_contract. reflexivity.
Defined.

(** C3, as the specification has it, fails.  A webhook on
    [hooks.slack.com] with its port written out is well formed and its host
    ends in [slack.com], yet it is refused; a webhook whose host is
    [evil.example] is accepted when [slack.com] stands where the port goes;
    and a configuration that is accepted leaves a line in the log. *)
Lemma validate_environment_host_and_log :
  (config_rejected_by_host Url.urlsplit_ascii Sample.cfg_with_port = false
   /\ config_error
        (fst (validate_environment Url.urlsplit_ascii Sample.cfg_with_port))
      = true)
  /\ (host_on_slack Url.urlsplit_ascii
        (SLACK_WEBHOOK_URL Sample.cfg_port_text) = false
      /\ fst (validate_environment Url.urlsplit_ascii Sample.cfg_port_text)
         = Returns tt)
  /\ (fst (validate_environment Url.urlsplit_ascii Sample.cfg) = Returns tt
      /\ snd (validate_environment Url.urlsplit_ascii Sample.cfg) <> []).
Proof.
  repeat split. discriminate.
Qed.

(* ------------------------------------------------------------------ *)
(** * The monitor loop *)

Lemma Qgtb_lt (x : Q) (n : Z) : Qgtb x n = true <-> (x > inject_Z n)%Q.
Proof.
  unfold Qgtb. rewrite negb_true_iff. split.
  - intros H. apply Qnot_le_lt. intros Hle.
    apply Qle_bool_iff in Hle. congruence.
  - intros H. destruct (Qle_bool x (inject_Z n)) eqn:E; [|reflexivity].
    apply Qle_bool_iff in E. exfalso. apply (Qlt_not_le _ _ H E).
Qed.

Lemma Qgtb_le (x : Q) (n : Z) : Qgtb x n = false <-> (x <= inject_Z n)%Q.
Proof.
  unfold Qgtb. rewrite negb_false_iff. apply Qle_bool_iff.
Qed.

Lemma float_overflows_60 : float_overflows 60 = false.
Proof. vm_compute. reflexivity. Qed.

(** Evaluation of the blocks of the loop, up to the answers of the outside
    world. *)
Ltac run_loop :=
  cbv beta iota zeta delta
    [monitor_iteration try_except bind time_time call when get put emit
     raise ret log break_ asyncio_sleep sleep is_KeyboardInterrupt
     is_Exception];
  cbn [app].

(** The trace of one iteration of the loop: the reading of the clock, the
    check, then the notification or the line about the skipped one, and the
    wait that ends the iteration.  An interrupt during the wait leaves the
    iteration with [CancelledError], which neither handler of the loop
    catches. *)
Lemma monitor_iteration_shape (cfg : config) (p : poll) (last : Q) :
  let notify :=
    expected_availability 3 (sessions p)
    && Qgtb (clock p - last) (NOTIFICATION_INTERVAL cfg) in
  monitor_iteration cfg p last
  = ((if interrupted p then Raise CancelledError else Normal tt),
     (if notify then clock p else last),
     Clock (clock p)
     :: snd (check_availability cfg 3 (sessions p))
     ++ (if notify
         then snd (send_slack_notification cfg (timestamp p) (reply p))
         else if expected_availability 3 (sessions p)
              then [Log INFO "Slots are available but skipping notification due to interval"]
              else [])
     ++ iteration_wait cfg).
Proof.
  intros notify. subst notify. unfold iteration_wait.
  destruct (check_availability_facts cfg 3 (sessions p)) as (tc & Ec & _).
  destruct (send_slack_notification_facts cfg (timestamp p) (reply p))
    as (lv & msg & Es & _).
  unfold monitor_iteration, asyncio_sleep.
  rewrite Ec, Es, float_overflows_60.
  destruct (float_overflows (CHECK_INTERVAL cfg)); run_loop.
  all: destruct (expected_availability 3 (sessions p)),
         (Qgtb (clock p - last) (NOTIFICATION_INTERVAL cfg)), (interrupted p);
       run_loop; cbn [andb snd fst];
       rewrite <- ?app_assoc, ?app_nil_r; reflexivity.
Qed.

(** One iteration: how it completes, what it leaves in
    [last_notification_time], how often it posts. *)
Lemma monitor_iteration_facts (cfg : config) (p : poll) (last : Q) :
  let notify :=
    expected_availability 3 (sessions p)
    && Qgtb (clock p - last) (NOTIFICATION_INTERVAL cfg) in
  exists t,
    monitor_iteration cfg p last
    = ((if interrupted p then Raise CancelledError else Normal tt),
       (if notify then clock p else last), t)
    /\ posts t = (if notify then 1 else 0)
    /\ (forall now rest,
           notification_times now (t ++ rest)
           = (if notify then [clock p] else [])
             ++ notification_times (clock p) rest).
Proof.
  intros notify. rewrite monitor_iteration_shape. fold notify.
  eexists. split; [reflexivity|].
  destruct (check_availability_facts cfg 3 (sessions p)) as (tc & Ec & _ & Hev).
  destruct (send_slack_notification_facts cfg (timestamp p) (reply p))
    as (lv & msg & Es & _).
  rewrite Ec, Es. cbn [snd]. unfold iteration_wait.
  split.
  - cbn [posts]. rewrite !posts_app, (posts_checker _ Hev).
    destruct notify, (expected_availability 3 (sessions p)),
      (float_overflows (CHECK_INTERVAL cfg)); reflexivity.
  - intros now rest. cbn [app notification_times].
    rewrite <- !app_assoc, (notification_times_checker _ _ _ Hev).
    destruct notify, (expected_availability 3 (sessions p)),
      (float_overflows (CHECK_INTERVAL cfg)); reflexivity.
Qed.

Section Loop.
Variable cfg : config.
Variable polls : nat -> poll.

Let body (k : nat) : M Q unit unit := monitor_iteration cfg (polls k).
Let gap : Z := NOTIFICATION_INTERVAL cfg.

(** The loop is left, with [CancelledError], at the first interrupt. *)
Lemma monitor_loop_completion (fuel : nat) : forall (k : nat) (last : Q),
  fst (fst (while_true fuel k body last))
  = if existsb (fun j => interrupted (polls j)) (seq k fuel)
    then Raise CancelledError else Running.
Proof.
  induction fuel as [|fuel IH]; intros k last; [reflexivity|].
  cbn [while_true seq existsb]. unfold body at 1.
  rewrite monitor_iteration_shape.
  destruct (interrupted (polls k)); cbn [orb]; [reflexivity|].
  specialize (IH (S k)
                (if expected_availability 3 (sessions (polls k))
                    && Qgtb (clock (polls k) - last) (NOTIFICATION_INTERVAL cfg)
                 then clock (polls k) else last)).
  destruct (while_true fuel (S k) body _) as [[c l2] t2].
  exact IH.
Qed.

(** Successive notifications are more than the cooldown apart. *)
Lemma monitor_loop_spaced (fuel : nat) : forall (k : nat) (last now : Q),
  spaced gap last
    (notification_times now (snd (while_true fuel k body last))).
Proof.
  induction fuel as [|fuel IH]; intros k last now; [exact I|].
  cbn [while_true]. unfold body at 1.
  destruct (monitor_iteration_facts cfg (polls k) last) as (t & E & _ & Hnt).
  rewrite E.
  set (notify := expected_availability 3 (sessions (polls k))
                 && Qgtb (clock (polls k) - last) (NOTIFICATION_INTERVAL cfg))
    in *.
  assert (Hend : spaced gap last
                   (notification_times now (t ++ []))).
  { rewrite Hnt. destruct notify eqn:Hn; cbn; [|exact I].
    apply andb_true_iff in Hn as [_ Hgt]. apply Qgtb_lt in Hgt.
    split; [exact Hgt | exact I]. }
  destruct (interrupted (polls k)).
  - cbn [snd]. now rewrite app_nil_r in Hend.
  - specialize (IH (S k) (if notify then clock (polls k) else last)
                   (clock (polls k))).
    destruct (while_true fuel (S k) body _) as [[c l2] t2].
    cbn [snd] in *. rewrite Hnt.
    destruct notify eqn:Hn; cbn; [|exact IH].
    apply andb_true_iff in Hn as [_ Hgt]. apply Qgtb_lt in Hgt.
    split; [exact Hgt | exact IH].
Qed.

Lemma monitor_bookings_outcome (fuel : nat) :
  fst (monitor_bookings cfg fuel polls)
  = if existsb (fun j => interrupted (polls j)) (seq 0 fuel)
    then Raises CancelledError else StillRunning.
Proof.
  pose proof (monitor_loop_completion fuel 0 0%Q) as H.
  unfold monitor_bookings, monitor_bookings_body, run_body, bind, log, put,
    emit.
  fold body.
  destruct (while_true fuel 0 body 0%Q) as [[c l] t]. cbn [fst] in H.
  rewrite H.
  destruct (existsb _ _); reflexivity.
Qed.

Lemma monitor_bookings_trace (fuel : nat) :
  snd (monitor_bookings cfg fuel polls)
  = Log INFO "Starting booking monitoring..."
    :: snd (while_true fuel 0 body 0%Q).
Proof.
  unfold monitor_bookings, monitor_bookings_body, run_body, bind, log, put,
    emit.
  fold body.
  destruct (while_true fuel 0 body 0%Q) as [[c l] t].
  destruct c; reflexivity.
Qed.

Lemma monitor_bookings_spaced (fuel : nat) (now : Q) :
  spaced gap 0
    (notification_times now (snd (monitor_bookings cfg fuel polls))).
Proof.
  rewrite monitor_bookings_trace. cbn [notification_times].
  apply monitor_loop_spaced.
Qed.

End Loop.

(** With a cooldown that is not negative, any two notifications, not only
    successive ones, are more than the cooldown apart. *)
Lemma spaced_after (gap : Z) (last : Q) (times : list Q) :
  (0 <= gap)%Z -> spaced gap last times ->
  forall t, In t times -> (t - last > inject_Z gap)%Q.
Proof.
  intros Hgap.
  assert (Hq : (0 <= inject_Z gap)%Q).
  { change 0%Q with (inject_Z 0). rewrite <- Zle_Qle. exact Hgap. }
  revert last.
  induction times as [|t0 times IH]; intros last Hsp t Hin; [destruct Hin|].
  destruct Hsp as [H0 Hrest]. destruct Hin as [<-|Hin]; [exact H0|].
  specialize (IH t0 Hrest t Hin). lra.
Qed.

Lemma spaced_pairwise (gap : Z) (last : Q) (times : list Q) :
  (0 <= gap)%Z -> spaced gap last times ->
  forall i j ti tj,
    i < j -> nth_error times i = Some ti -> nth_error times j = Some tj ->
    (tj - ti > inject_Z gap)%Q.
Proof.
  intros Hgap. revert last.
  induction times as [|t0 times IH]; intros last Hsp i j ti tj Hij Hi Hj.
  - destruct i; discriminate.
  - destruct Hsp as [H0 Hrest].
    destruct j as [|j]; [lia|]. cbn in Hj.
    destruct i as [|i]; cbn in Hi.
    + injection Hi as <-.
      apply (spaced_after gap t0 times Hgap Hrest).
      eapply nth_error_In; eassumption.
    + apply (IH t0 Hrest i j); [lia | assumption | assumption].
Qed.

Lemma existsb_seq_true (f : nat -> bool) (k : nat) : forall (n a : nat),
  a <= k < a + n -> f k = true -> existsb f (seq a n) = true.
Proof.
  intros n a Hk Hf. apply existsb_exists. exists k. split; [|exact Hf].
  apply in_seq. lia.
Qed.

Lemma existsb_seq_false (f : nat -> bool) : forall (n a : nat),
  (forall k, a <= k < a + n -> f k = false) -> existsb f (seq a n) = false.
Proof.
  induction n as [|n IH]; intros a Hall; [reflexivity|].
  cbn [seq existsb]. rewrite (Hall a) by lia. apply IH.
  intros k Hk. apply Hall. lia.
Qed.

(** C1: in every iteration the notifier is invoked exactly when the check
    returned [True] and the time read at the start of the iteration is more
    than the cooldown after the last notification time; it is then invoked
    once, and the last notification time becomes the time read at the start
    of the iteration; otherwise the time is left as it was.  Over a run of
    the loop, successive notifications are more than the cooldown apart,
    the first one more than the cooldown after time 0; with a cooldown
    that is not negative so are any two notifications. *)
Theorem notification_once_per_cooldown (cfg : config) (p : poll) (last : Q)
        (fuel : nat) (polls : nat -> poll) (now : Q) :
  (exists b c t,
      fst (check_availability cfg 3 (sessions p)) = Returns b
      /\ monitor_iteration cfg p last
         = (c,
            if b && Qgtb (clock p - last) (NOTIFICATION_INTERVAL cfg)
            then clock p else last,
            t)
      /\ posts t
         = if b && Qgtb (clock p - last) (NOTIFICATION_INTERVAL cfg)
           then 1 else 0)
  /\ spaced (NOTIFICATION_INTERVAL cfg) 0
       (notification_times now (snd (monitor_bookings cfg fuel polls)))
  /\ ((0 <= NOTIFICATION_INTERVAL cfg)%Z ->
      forall i j ti tj,
        i < j ->
        nth_error (notification_times now
                     (snd (monitor_bookings cfg fuel polls))) i = Some ti ->
        nth_error (notification_times now
                     (snd (monitor_bookings cfg fuel polls))) j = Some tj ->
        (tj - ti > inject_Z (NOTIFICATION_INTERVAL cfg))%Q).
Proof.
  split; [|split].
  - destruct (check_availability_facts cfg 3 (sessions p)) as (tc & Ec & _).
    destruct (monitor_iteration_facts cfg p last) as (t & E & Hposts & _).
    exists (expected_availability 3 (sessions p)). eexists. exists t.
    rewrite Ec. repeat split; [exact E | exact Hposts].
  - apply monitor_bookings_spaced.
  - intros Hgap. apply (spaced_pairwise _ 0); [exact Hgap|].
    apply monitor_bookings_spaced.
Qed.

(** Free slots at every poll, ten minutes apart, with a cooldown of thirty
    minutes: the first and the fifth poll notify, forty minutes apart. *)
Lemma notification_once_per_cooldown_witness :
  notification_times 0 (snd (monitor_bookings Sample.cfg 6 Sample.polls))
  = [1700000000; 1700002400]%Q
  /\ (1700002400 - 1700000000
      > inject_Z (NOTIFICATION_INTERVAL Sample.cfg))%Q.
Proof.
  split; [reflexivity|].
  pose proof (notification_once_per_cooldown Sample.cfg
                (Sample.polls 0) 0 6 Sample.polls 0) as (_ & _ & Hpair).
  apply (Hpair ltac:(simpl; lia) 0 1); [lia | reflexivity | reflexivity].
Defined.

(** C2, as the script has it: the last notification time is set right
    after every call of the notifier, whether or not the webhook took the
    post: when the check returned [True] and the cooldown has passed, the
    iteration posts once and leaves the time read at its start in
    [last_notification_time], whatever the webhook answers; an iteration
    that does not post leaves the time unchanged. *)
Theorem last_notification_time_updated (cfg : config) (p : poll) (last : Q) :
  (fst (check_availability cfg 3 (sessions p)) = Returns true ->
   (clock p - last > inject_Z (NOTIFICATION_INTERVAL cfg))%Q ->
   exists c t,
     monitor_iteration cfg p last = (c, clock p, t) /\ posts t = 1)
  /\ (posts (snd (monitor_iteration cfg p last)) = 0 ->
      snd (fst (monitor_iteration cfg p last)) = last).
Proof.
  destruct (check_availability_facts cfg 3 (sessions p)) as (tc & Ec & _).
  destruct (monitor_iteration_facts cfg p last) as (t & E & Hposts & _).
  split.
  - rewrite Ec. cbn [fst]. intros Hb Hgt.
    injection Hb as Hb. rewrite Hb in E, Hposts.
    apply Qgtb_lt in Hgt. rewrite Hgt in E, Hposts.
    eexists. exists t. split; [exact E | exact Hposts].
  - rewrite E. cbn [fst snd]. rewrite Hposts.
    destruct (expected_availability 3 (sessions p)
              && Qgtb (clock p - last) (NOTIFICATION_INTERVAL cfg));
      [discriminate | reflexivity].
Qed.

(** Free slots, the cooldown long past, and the webhook answers 500. *)
Lemma last_notification_time_updated_witness :
  exists c t,
    monitor_iteration Sample.cfg Sample.poll_webhook_down 0%Q
    = (c, 1700000000%Q, t)
    /\ posts t = 1.
Proof.
  apply (last_notification_time_updated Sample.cfg Sample.poll_webhook_down
           0%Q).
  - reflexivity.
  - reflexivity.
Defined.

(** C2, as the specification has it, fails: the webhook answers 500 and
    the last notification time changes all the same. *)
Lemma last_notification_time_changes_on_failed_post :
  fst (check_availability Sample.cfg 3 (sessions Sample.poll_webhook_down))
  = Returns true
  /\ post_failed (reply Sample.poll_webhook_down) = true
  /\ snd (fst (monitor_iteration Sample.cfg Sample.poll_webhook_down 0%Q))
     <> 0%Q.
Proof.
  repeat split. vm_compute. discriminate.
Qed.

(* ------------------------------------------------------------------ *)
(** * The entry point *)

Lemma main_facts (urlparse : string -> parse_result + string) (cfg : config)
      (fuel : nat) (polls : nat -> poll) :
  if config_rejected urlparse cfg
  then exists msg,
      main urlparse cfg fuel polls
      = (Returns 1%Z,
         Log ERROR ("Configuration error: " ++ msg)
         :: Print ("Error: " ++ msg) :: map Print usage_lines)
  else main urlparse cfg fuel polls
       = (if existsb (fun j => interrupted (polls j)) (seq 0 fuel)
          then Raises KeyboardInterrupt else StillRunning,
          Log INFO "Environment variables validated successfully"
          :: snd (monitor_bookings cfg fuel polls)).
Proof.
  pose proof (validate_environment_facts urlparse cfg) as Hv.
  pose proof (monitor_bookings_outcome cfg polls fuel) as Hm.
  unfold main, main_body, run_body, try_except, bind, call, asyncio_run,
    print_usage, print, log, emit, return_.
  destruct (config_rejected urlparse cfg).
  - destruct Hv as (msg & ->). exists msg. reflexivity.
  - rewrite Hv.
    destruct (monitor_bookings cfg fuel polls) as [o t]. cbn [fst] in Hm.
    subst o. cbn [snd].
    destruct (existsb _ _); reflexivity.
Qed.

(** C8, as the script behaves: [main] returns 1 when the validation of the
    configuration fails, after printing the error and the usage summary
    with the required and the optional variables.  With a valid
    configuration it does not return while the loop runs, and the
    interrupt does not make it return 0: the wait of the loop is left with
    [CancelledError], which the [except KeyboardInterrupt] of the loop does
    not catch, [asyncio.run] raises [KeyboardInterrupt], which neither
    handler of [main] catches, and the process ends with status 130. *)
Theorem main_exit_codes (urlparse : string -> parse_result + string)
        (cfg : config) (fuel : nat) (polls : nat -> poll) :
  (config_rejected urlparse cfg = true ->
   fst (main urlparse cfg fuel polls) = Returns 1%Z
   /\ exit_status (fst (main urlparse cfg fuel polls)) = Some 1%Z
   /\ exists msg,
       printed (snd (main urlparse cfg fuel polls))
       = ("Error: " ++ msg)%string :: usage_lines)
  /\ (config_rejected urlparse cfg = false ->
      forall k, k < fuel -> interrupted (polls k) = true ->
                fst (monitor_bookings cfg fuel polls) = Raises CancelledError
                /\ fst (main urlparse cfg fuel polls)
                   = Raises KeyboardInterrupt
                /\ exit_status (fst (main urlparse cfg fuel polls))
                   = Some 130%Z)
  /\ (config_rejected urlparse cfg = false ->
      (forall k, k < fuel -> interrupted (polls k) = false) ->
      fst (main urlparse cfg fuel polls) = StillRunning).
Proof.
  pose proof (main_facts urlparse cfg fuel polls) as H.
  split; [|split].
  - intros Hrej. rewrite Hrej in H. destruct H as (msg & ->).
    split; [reflexivity|]. split; [reflexivity|]. exists msg. reflexivity.
  - intros Hok k Hk Hint. rewrite Hok in H. rewrite H.
    rewrite monitor_bookings_outcome.
    rewrite (existsb_seq_true _ k); [| lia | exact Hint].
    repeat split.
  - intros Hok Hnone. rewrite Hok in H. rewrite H.
    rewrite existsb_seq_false; [reflexivity|].
    intros k Hk. apply Hnone. lia.
Qed.

(** A webhook without a scheme: exit status 1.  The sample configuration,
    interrupted during the sixth poll: [KeyboardInterrupt] leaves [main]
    and the exit status is 130, not 0; nothing ends the run within the
    first five polls. *)
Lemma main_exit_codes_witness :
  fst (main Url.urlsplit_ascii Sample.cfg_no_scheme 6 Sample.polls)
  = Returns 1%Z
  /\ exit_status (fst (main Url.urlsplit_ascii Sample.cfg 6 Sample.polls))
     = Some 130%Z
  /\ fst (main Url.urlsplit_ascii Sample.cfg 5 Sample.polls) = StillRunning.
Proof.
  split; [|split].
  - apply (main_exit_codes Url.urlsplit_ascii Sample.cfg_no_scheme 6
             Sample.polls). reflexivity.
  - destruct (main_exit_codes Url.urlsplit_ascii Sample.cfg 6 Sample.polls)
      as (_ & Hint & _).
    apply (Hint eq_refl 5); [lia | reflexivity].
  - destruct (main_exit_codes Url.urlsplit_ascii Sample.cfg 5 Sample.polls)
      as (_ & _ & Hrun).
    apply Hrun; [reflexivity|].
    intros [|[|[|[|[|k]]]]] Hk; try reflexivity. lia.
Defined.
(* ------------------------------------------------------------------ *)
(** * More about the validator *)

Lemma validate_environment_message
      (urlparse : string -> parse_result + string) (cfg : config) :
  validate_environment urlparse cfg
  = match validation_message urlparse cfg with
    | Some msg => (Raises (ValueError msg), [])
    | None =>
        (Returns tt,
         [Log INFO "Environment variables validated successfully"])
    end.
Proof.
  unfold validate_environment, validate_environment_body, validation_message,
    url_problem, run_body, py_urlparse, when, try_except, bind, raise, ret,
    log, emit.
  destruct (truthy_str (SLACK_WEBHOOK_URL cfg)); cbn; [|reflexivity].
  destruct (urlparse (SLACK_WEBHOOK_URL cfg)) as [p|err]; cbn; [|reflexivity].
  destruct (truthy_str (scheme p)), (truthy_str (netloc p)); cbn;
    try reflexivity.
  destruct (endswith (netloc p) "slack.com"); cbn; [|reflexivity].
  destruct (truthy_str (CLINIC_URL cfg)); cbn; [|reflexivity].
  destruct (urlparse (CLINIC_URL cfg)) as [q|err]; cbn; [|reflexivity].
  destruct (truthy_str (scheme q)), (truthy_str (netloc q)); reflexivity.
Qed.

(** X1: the validator never looks at the two intervals.  Two
    configurations with the same URLs are accepted or refused alike, with
    the same message, whatever [CHECK_INTERVAL] and
    [NOTIFICATION_INTERVAL] are, zero and negative values included. *)
Theorem validate_environment_ignores_intervals
        (urlparse : string -> parse_result + string) (cfg cfg' : config) :
  SLACK_WEBHOOK_URL cfg' = SLACK_WEBHOOK_URL cfg ->
  CLINIC_URL cfg' = CLINIC_URL cfg ->
  validate_environment urlparse cfg' = validate_environment urlparse cfg.
Proof.
  intros Hw Hc. rewrite !validate_environment_message.
  unfold validation_message. now rewrite Hw, Hc.
Qed.

Lemma validate_environment_ignores_intervals_witness :
  validate_environment Url.urlsplit_ascii Sample2.cfg_fast
  = validate_environment Url.urlsplit_ascii Sample.cfg
  /\ fst (validate_environment Url.urlsplit_ascii Sample2.cfg_fast)
     = Returns tt.
Proof.
  split; [|reflexivity].
  apply validate_environment_ignores_intervals; reflexivity.
Defined.

(** X2: the webhook URL is judged first.  When something is wrong with it,
    the validator raises the error of the webhook without examining the
    clinic URL: the outcome is the same whatever the clinic URL is. *)
Theorem validate_environment_webhook_first
        (urlparse : string -> parse_result + string) (cfg cfg' : config) :
  SLACK_WEBHOOK_URL cfg' = SLACK_WEBHOOK_URL cfg ->
  negb (truthy_str (SLACK_WEBHOOK_URL cfg))
  || negb (well_formed urlparse (SLACK_WEBHOOK_URL cfg))
  || negb (netloc_on_slack urlparse (SLACK_WEBHOOK_URL cfg)) = true ->
  validate_environment urlparse cfg' = validate_environment urlparse cfg
  /\ exists msg,
      url_problem urlparse "SLACK_WEBHOOK_URL" (SLACK_WEBHOOK_URL cfg) true
      = Some msg
      /\ validate_environment urlparse cfg = (Raises (ValueError msg), []).
Proof.
  intros Hw Hbad.
  assert (Hsome : exists msg,
             url_problem urlparse "SLACK_WEBHOOK_URL"
               (SLACK_WEBHOOK_URL cfg) true = Some msg).
  { revert Hbad. unfold url_problem, well_formed, netloc_on_slack.
    destruct (truthy_str (SLACK_WEBHOOK_URL cfg)); cbn; [|eauto].
    destruct (urlparse (SLACK_WEBHOOK_URL cfg)) as [p|err]; cbn; [|eauto].
    destruct (truthy_str (scheme p) && truthy_str (netloc p)); cbn; [|eauto].
    destruct (endswith (netloc p) "slack.com"); cbn; [discriminate|eauto]. }
  destruct Hsome as (msg & Hmsg).
  rewrite !validate_environment_message. unfold validation_message.
  rewrite Hw, Hmsg. split; [reflexivity|]. exists msg. split; reflexivity.
Qed.

Lemma validate_environment_webhook_first_witness :
  validate_environment Url.urlsplit_ascii Sample2.cfg_elsewhere_no_clinic
  = validate_environment Url.urlsplit_ascii Sample2.cfg_elsewhere
  /\ validate_environment Url.urlsplit_ascii Sample2.cfg_elsewhere
     = (Raises (ValueError "Invalid SLACK_WEBHOOK_URL: SLACK_WEBHOOK_URL must be a Slack webhook URL"),
        []).
Proof.
  destruct (validate_environment_webhook_first Url.urlsplit_ascii
              Sample2.cfg_elsewhere Sample2.cfg_elsewhere_no_clinic
              eq_refl eq_refl) as (Hsame & msg & Hmsg & Hraise).
  split; [exact Hsame|].
  rewrite Hraise. injection Hmsg as <-. reflexivity.
Defined.

(** X3: the message of the configuration error.  A missing variable is
    reported as ["<NAME> environment variable is required"]; every other
    problem, the parser's own error included, is reported behind the prefix
    ["Invalid <NAME>: "], because the [ValueError] raised inside the [try]
    block is caught by the [except Exception] of the same block and raised
    again; a refused configuration leaves no line in the log. *)
Theorem validate_environment_messages
        (urlparse : string -> parse_result + string) (cfg : config) :
  (SLACK_WEBHOOK_URL cfg = "" ->
   validate_environment urlparse cfg
   = (Raises (ValueError "SLACK_WEBHOOK_URL environment variable is required"),
      []))
  /\ (forall err, SLACK_WEBHOOK_URL cfg <> "" ->
                  urlparse (SLACK_WEBHOOK_URL cfg) = inr err ->
                  validate_environment urlparse cfg
                  = (Raises (ValueError ("Invalid SLACK_WEBHOOK_URL: " ++ err)),
                     []))
  /\ (forall p, SLACK_WEBHOOK_URL cfg <> "" ->
                urlparse (SLACK_WEBHOOK_URL cfg) = inl p ->
                scheme p = "" \/ netloc p = "" ->
                validate_environment urlparse cfg
                = (Raises (ValueError "Invalid SLACK_WEBHOOK_URL: SLACK_WEBHOOK_URL must be a valid URL"),
                   []))
  /\ (forall p, urlparse (SLACK_WEBHOOK_URL cfg) = inl p ->
                scheme p <> "" -> netloc p <> "" ->
                endswith (netloc p) "slack.com" = false ->
                SLACK_WEBHOOK_URL cfg <> "" ->
                validate_environment urlparse cfg
                = (Raises (ValueError "Invalid SLACK_WEBHOOK_URL: SLACK_WEBHOOK_URL must be a Slack webhook URL"),
                   []))
  /\ (url_problem urlparse "SLACK_WEBHOOK_URL" (SLACK_WEBHOOK_URL cfg) true
      = None ->
      validate_environment urlparse cfg
      = match url_problem urlparse "CLINIC_URL" (CLINIC_URL cfg) false with
        | Some msg => (Raises (ValueError msg), [])
        | None =>
            (Returns tt,
             [Log INFO "Environment variables validated successfully"])
        end).
Proof.
  assert (Htruthy : forall s, s <> "" -> truthy_str s = true).
  { intros [|c s] H; [now elim H | reflexivity]. }
  rewrite validate_environment_message. unfold validation_message.
  repeat split.
  - intros ->. reflexivity.
  - intros err Hne Herr. unfold url_problem.
    now rewrite (Htruthy _ Hne), Herr.
  - intros p Hne Hp Hmissing. unfold url_problem.
    rewrite (Htruthy _ Hne), Hp. cbn.
    destruct Hmissing as [-> | ->]; cbn; [reflexivity|].
    now rewrite andb_false_r.
  - intros p Hp Hs Hn Hend Hne. unfold url_problem.
    rewrite (Htruthy _ Hne), Hp, (Htruthy _ Hs), (Htruthy _ Hn), Hend.
    reflexivity.
  - intros ->. reflexivity.
Qed.

Lemma validate_environment_messages_witness :
  validate_environment Url.urlsplit_ascii Sample2.cfg_empty
  = (Raises (ValueError "SLACK_WEBHOOK_URL environment variable is required"),
     [])
  /\ validate_environment Url.urlsplit_ascii Sample.cfg_no_scheme
     = (Raises (ValueError "Invalid SLACK_WEBHOOK_URL: SLACK_WEBHOOK_URL must be a valid URL"),
        []).
Proof.
  split.
  - apply (validate_environment_messages Url.urlsplit_ascii Sample2.cfg_empty).
    reflexivity.
  - destruct (validate_environment_messages Url.urlsplit_ascii
                Sample.cfg_no_scheme) as (_ & _ & H & _).
    apply (H {| scheme := ""; netloc := "" |});
      [discriminate | reflexivity | left; reflexivity].
Defined.

(* ------------------------------------------------------------------ *)
(** * More about the availability checker *)

Lemma starts_app (t1 t2 : trace) : starts (t1 ++ t2) = starts t1 + starts t2.
Proof.
  induction t1 as [|e t1 IH]; [reflexivity|].
  destruct e as [| | | |c r|]; cbn; try exact IH.
  destruct c; cbn; rewrite ?IH; reflexivity.
Qed.

Lemma sleeps_app (t1 t2 : trace) : sleeps (t1 ++ t2) = sleeps t1 ++ sleeps t2.
Proof.
  induction t1 as [|e t1 IH]; [reflexivity|].
  destruct e; cbn; rewrite ?IH; reflexivity.
Qed.

Lemma total_sleep_app (t1 t2 : trace) :
  total_sleep (t1 ++ t2) = (total_sleep t1 + total_sleep t2)%Z.
Proof.
  unfold total_sleep. rewrite sleeps_app.
  induction (sleeps t1) as [|d ds IH]; cbn; [reflexivity|]. rewrite IH. lia.
Qed.

Lemma gotos_app (t1 t2 : trace) : gotos (t1 ++ t2) = gotos t1 ++ gotos t2.
Proof.
  induction t1 as [|e t1 IH]; [reflexivity|].
  destruct e as [| | | |c r|]; cbn; try exact IH.
  destruct c; cbn; rewrite ?IH; reflexivity.
Qed.

(** An attempt starts by clearing [browser]: what it does is the same
    whatever the variable held. *)
Lemma check_attempt_fresh (cfg : config) (m a : nat) (s : session)
      (l : check_locals) :
  check_attempt cfg m a s l = check_attempt cfg m a s None.
Proof. reflexivity. Qed.

(** What the trace of an attempt contains, on every path. *)
Lemma check_attempt_trace_facts (cfg : config) (m a : nat) (s : session)
      (l : check_locals) :
  forall c l' t,
    check_attempt cfg m a s l = (c, l', t) ->
    starts t = 1
    /\ closes t = attempt_closes (a <? m - 1) s
    /\ (gotos t = [] \/ gotos t = [(CLINIC_URL cfg, 30000%Z)]).
Proof.
  unfold check_attempt, attempt_closes, launched.
  destruct (a <? m - 1).
  all: attempt_cases s.
  all: intros c l' t H; injection H as <- <- <-.
  all: repeat split; try reflexivity; auto.
Qed.

Section RetryTrace.
Variable cfg : config.
Variable m : nat.
Variable sessions : nat -> session.

Let succeeds (k : nat) : bool := attempt_succeeds (sessions k).
Let trace_of (k : nat) : trace := attempt_trace cfg m k (sessions k).

(** The trace of the loop is the traces of the attempts made, one after
    the other. *)
Lemma retry_loop_trace (n : nat) : forall (a : nat) (l : check_locals),
  a + n = m ->
  snd (for_each (seq a n) (fun k => check_attempt cfg m k (sessions k)) l)
  = flat_map trace_of (seq a (attempts_run succeeds a n)).
Proof.
  induction n as [|n IH]; intros a l Ham; [reflexivity|].
  destruct (check_attempt_facts cfg m a (sessions a) l)
    as (l1 & t1 & E & _).
  assert (Ht1 : trace_of a = t1).
  { unfold trace_of, attempt_trace.
    now rewrite <- (check_attempt_fresh cfg m a (sessions a) l), E. }
  cbn [seq for_each attempts_run]. rewrite E.
  unfold attempt_completion. fold (succeeds a).
  destruct (succeeds a).
  - cbn. now rewrite app_nil_r.
  - cbn [seq flat_map]. rewrite Ht1.
    destruct (a <? m - 1) eqn:Hlt.
    + specialize (IH (S a) l1 ltac:(lia)).
      destruct (navigation_fails (sessions a)
                && succeeds_at (sessions a) AtCloseBeforeRetry
                && succeeds_at (sessions a) AtStop);
        destruct (for_each (seq (S a) n) _ l1) as [[c l2] t2];
        cbn [snd] in *; now rewrite IH.
    + apply Nat.ltb_ge in Hlt. assert (n = 0) by lia. subst n.
      cbn. now rewrite app_nil_r.
Qed.

Lemma check_availability_trace :
  snd (check_availability cfg m sessions)
  = flat_map trace_of (seq 0 (attempts_made m sessions)).
Proof.
  pose proof (retry_loop_trace m 0 None eq_refl) as H.
  destruct (retry_loop cfg m sessions m 0 None eq_refl) as (l' & t & E & _).
  rewrite E in H. cbn [snd] in H.
  unfold check_availability, check_availability_body, run_body, bind.
  rewrite E. unfold attempts_made. fold succeeds.
  destruct (List.find _ (seq 0 m)); [exact H|].
  destruct m; cbn; rewrite ?app_nil_r; exact H.
Qed.

Lemma attempts_run_le (n : nat) : forall a, attempts_run succeeds a n <= n.
Proof.
  induction n as [|n IH]; intros a; cbn [attempts_run]; [lia|].
  destruct (succeeds a); [lia|]. specialize (IH (S a)). lia.
Qed.

Lemma attempts_run_first (k : nat) : forall n a,
  a <= k < a + n ->
  (forall j, a <= j < k -> succeeds j = false) ->
  succeeds k = true ->
  attempts_run succeeds a n = S k - a.
Proof.
  induction n as [|n IH]; intros a Hk Hbefore Hsucc; [lia|].
  cbn [attempts_run]. destruct (Nat.eq_dec a k) as [->|Hne].
  - rewrite Hsucc. lia.
  - rewrite (Hbefore a) by lia.
    rewrite (IH (S a)); [lia | lia | | exact Hsucc].
    intros j Hj. apply Hbefore. lia.
Qed.

Lemma attempts_run_none (n : nat) : forall a,
  (forall j, a <= j < a + n -> succeeds j = false) ->
  attempts_run succeeds a n = n.
Proof.
  induction n as [|n IH]; intros a Hnone; [reflexivity|].
  cbn [attempts_run]. rewrite (Hnone a) by lia. f_equal. apply IH.
  intros j Hj. apply Hnone. lia.
Qed.

Lemma starts_attempts (n : nat) : forall a,
  starts (flat_map trace_of (seq a n)) = n.
Proof.
  induction n as [|n IH]; intros a; [reflexivity|].
  cbn [seq flat_map]. rewrite starts_app, IH.
  unfold trace_of, attempt_trace.
  destruct (check_attempt cfg m a (sessions a) None) as [[c l'] t] eqn:E.
  cbn [snd]. now rewrite (proj1 (check_attempt_trace_facts _ _ _ _ _ _ _ _ E)).
Qed.

Lemma gotos_attempts (n : nat) : forall a,
  Forall (eq (CLINIC_URL cfg, 30000%Z)) (gotos (flat_map trace_of (seq a n)))
  /\ List.length (gotos (flat_map trace_of (seq a n))) <= n.
Proof.
  induction n as [|n IH]; intros a; [split; [constructor | cbn; lia]|].
  cbn [seq flat_map]. rewrite gotos_app, length_app.
  destruct (IH (S a)) as [Hall Hlen].
  unfold trace_of at 1 3, attempt_trace.
  destruct (check_attempt cfg m a (sessions a) None) as [[c l'] t] eqn:E.
  destruct (check_attempt_trace_facts _ _ _ _ _ _ _ _ E)
    as (_ & _ & [Hg | Hg]); cbn [snd]; rewrite Hg; cbn.
  - split; [exact Hall | lia].
  - split; [constructor; [reflexivity | exact Hall] | lia].
Qed.

(** The waits of the attempts made: at most 15 seconds after each attempt
    but the last one made. *)
Lemma total_sleep_attempts (n : nat) : forall a,
  a + n = m ->
  (0 <= total_sleep (flat_map trace_of (seq a (attempts_run succeeds a n)))
   <= 15 * Z.of_nat (attempts_run succeeds a n - 1))%Z.
Proof.
  induction n as [|n IH]; intros a Ham; [cbn; lia|].
  cbn [attempts_run].
  destruct (check_attempt_facts cfg m a (sessions a) None)
    as (l1 & t1 & E & _ & _ & Hs & _).
  assert (Ht1 : trace_of a = t1).
  { unfold trace_of, attempt_trace. now rewrite E. }
  unfold attempt_sleeps in Hs. fold (succeeds a) in Hs.
  destruct (succeeds a).
  - cbn [seq flat_map]. rewrite app_nil_r, Ht1.
    unfold total_sleep. rewrite Hs. cbn. lia.
  - cbn [seq flat_map]. rewrite total_sleep_app, Ht1.
    specialize (IH (S a) ltac:(lia)).
    assert (Hfirst : (0 <= total_sleep t1
                      <= if (a <? m - 1)%nat then 15 else 0)%Z).
    { unfold total_sleep. rewrite Hs.
      destruct (a <? m - 1), (navigation_fails (sessions a)),
        (succeeds_at (sessions a) AtCloseBeforeRetry),
        (succeeds_at (sessions a) AtStop); cbn; lia. }
    destruct (a <? m - 1) eqn:Hlt.
    + apply Nat.ltb_lt in Hlt.
      assert (Hrun : 1 <= attempts_run succeeds (S a) n).
      { destruct n as [|n']; [lia|]. cbn [attempts_run].
        destruct (succeeds (S a)); lia. }
      lia.
    + apply Nat.ltb_ge in Hlt. assert (n = 0) by lia. subst n.
      cbn [attempts_run seq flat_map] in *. unfold total_sleep in *.
      cbn [sleeps fold_right] in *. lia.
Qed.

(** After a failed attempt that is not the last, the next one is made. *)
Lemma attempts_run_after_failures (k : nat) : forall n a,
  a <= k -> k + 1 < a + n ->
  (forall j, a <= j <= k -> succeeds j = false) ->
  k + 2 - a <= attempts_run succeeds a n.
Proof.
  induction n as [|n IH]; intros a Hak Hkn Hfail; [lia|].
  cbn [attempts_run]. rewrite (Hfail a) by lia.
  destruct (Nat.eq_dec a k) as [->|Hne].
  - destruct n as [|n']; [lia|]. cbn [attempts_run].
    destruct (succeeds (S k)); lia.
  - specialize (IH (S a) ltac:(lia) ltac:(lia)).
    assert (k + 2 - S a <= attempts_run succeeds (S a) n).
    { apply IH. intros j Hj. apply Hfail. lia. }
    lia.
Qed.

End RetryTrace.

(** C4: [check_availability] never raises, and an error in an attempt
    triggers a retry.  Whatever the browser does, the call returns a
    boolean, and its trace is the traces of the attempts it makes, one
    after the other.  After an attempt that fails and is not the last one
    the next attempt is made, after a wait of 10 seconds, longer than the
    5 seconds that follow a failed navigation.  When none of the three
    attempts goes through, all three are made and the check returns
    [False]. *)
Theorem check_availability_never_raises (cfg : config) (m : nat)
        (sessions : nat -> session) :
  (exists b, fst (check_availability cfg m sessions) = Returns b)
  /\ snd (check_availability cfg m sessions)
     = flat_map (fun k => attempt_trace cfg m k (sessions k))
         (seq 0 (attempts_made m sessions))
  /\ starts (snd (check_availability cfg m sessions))
     = attempts_made m sessions
  /\ (forall k,
         k + 1 < m ->
         (forall j, j <= k -> attempt_succeeds (sessions j) = false) ->
         k + 2 <= attempts_made m sessions
         /\ (navigation_fails (sessions k) = false ->
             sleeps (attempt_trace cfg m k (sessions k)) = [10%Z])
         /\ (navigation_fails (sessions k) = true ->
             succeeds_at (sessions k) AtCloseBeforeRetry = true ->
             exists rest,
               sleeps (attempt_trace cfg m k (sessions k)) = 5%Z :: rest)
         /\ (forall d, In d (sleeps (attempt_trace cfg m k (sessions k))) ->
                       d = 5%Z \/ d = 10%Z)
         /\ (5 < 10)%Z)
  /\ ((forall k, k < 3 -> attempt_succeeds (sessions k) = false) ->
      fst (check_availability cfg 3 sessions) = Returns false
      /\ attempts_made 3 sessions = 3
      /\ starts (snd (check_availability cfg 3 sessions)) = 3).
Proof.
  split; [|split; [|split; [|split]]].
  - destruct (check_availability_facts cfg m sessions) as (t & E & _).
    rewrite E. eexists; reflexivity.
  - apply check_availability_trace.
  - rewrite check_availability_trace. apply starts_attempts.
  - intros k Hk Hfail.
    split.
    { pose proof (attempts_run_after_failures sessions k m 0
                    ltac:(lia) ltac:(lia)) as H.
      unfold attempts_made.
      assert (k + 2 - 0 <= attempts_run
                (fun k0 => attempt_succeeds (sessions k0)) 0 m).
      { apply H. intros j Hj. apply Hfail. lia. }
      lia. }
    destruct (check_attempt_facts cfg m k (sessions k) None)
      as (l' & t & E & _ & _ & Hs & _).
    assert (Ht : attempt_trace cfg m k (sessions k) = t).
    { unfold attempt_trace. now rewrite E. }
    rewrite Ht.
    assert (Hlt : (k <? m - 1) = true) by (apply Nat.ltb_lt; lia).
    rewrite Hlt in Hs. unfold attempt_sleeps in Hs.
    rewrite (Hfail k (le_n k)) in Hs.
    repeat split.
    + intros Hnav. now rewrite Hnav in Hs.
    + intros Hnav Hclose. rewrite Hnav, Hclose in Hs. eauto.
    + intros d Hd. rewrite Hs in Hd.
      destruct (navigation_fails (sessions k)),
        (succeeds_at (sessions k) AtCloseBeforeRetry),
        (succeeds_at (sessions k) AtStop); simpl in Hd; intuition.
  - intros Hall.
    assert (Hmade : attempts_made 3 sessions = 3).
    { unfold attempts_made. apply attempts_run_none.
      intros j Hj. apply Hall. lia. }
    split; [now apply check_availability_no_success|].
    split; [exact Hmade|].
    rewrite check_availability_trace, starts_attempts. exact Hmade.
Qed.

(** The page crashes at every attempt: the second and the third attempt
    are made, each after a wait of 10 seconds, and the check returns
    [False]. *)
Lemma check_availability_never_raises_witness :
  fst (check_availability Sample.cfg 3 (fun _ => Sample.crashing))
  = Returns false
  /\ starts (snd (check_availability Sample.cfg 3 (fun _ => Sample.crashing)))
     = 3
  /\ sleeps (attempt_trace Sample.cfg 3 0 Sample.crashing) = [10%Z]
  /\ sleeps (attempt_trace Sample.cfg 3 1 Sample.crashing) = [10%Z].
Proof.
  pose proof (check_availability_never_raises Sample.cfg 3
                (fun _ => Sample.crashing)) as (_ & _ & _ & Hretry & Hall).
  destruct (Hall (fun k _ => eq_refl)) as (Hret & _ & Hstarts).
  destruct (Hretry 0 ltac:(lia) (fun j _ => eq_refl)) as (_ & H0 & _).
  destruct (Hretry 1 ltac:(lia) (fun j _ => eq_refl)) as (_ & H1 & _).
  split; [exact Hret|]. split; [exact Hstarts|].
  split; [apply H0 | apply H1]; reflexivity.
Defined.

(** X4: the number of attempts.  A check makes one attempt after the other
    until one goes through: [k + 1] attempts when attempt [k] is the first
    to go through, [max_retries] attempts when none does, and never more
    than [max_retries]; with [max_retries] at 0 it makes none. *)
Theorem check_availability_attempts (cfg : config) (m : nat)
        (sessions : nat -> session) :
  starts (snd (check_availability cfg m sessions)) = attempts_made m sessions
  /\ attempts_made m sessions <= m
  /\ (forall k, k < m ->
                (forall j, j < k -> attempt_succeeds (sessions j) = false) ->
                attempt_succeeds (sessions k) = true ->
                starts (snd (check_availability cfg m sessions)) = S k)
  /\ ((forall k, k < m -> attempt_succeeds (sessions k) = false) ->
      starts (snd (check_availability cfg m sessions)) = m).
Proof.
  assert (Hstarts : starts (snd (check_availability cfg m sessions))
                    = attempts_made m sessions).
  { rewrite check_availability_trace. apply starts_attempts. }
  rewrite Hstarts. unfold attempts_made. repeat split.
  - apply attempts_run_le.
  - intros k Hk Hbefore Hsucc.
    rewrite (attempts_run_first sessions k); [lia | lia | | exact Hsucc].
    intros j Hj. apply Hbefore. lia.
  - intros Hnone. apply attempts_run_none.
    intros j Hj. apply Hnone. lia.
Qed.

(** Two failed navigations, then a page that loads: three attempts; a
    page that loads at once: one. *)
Lemma check_availability_attempts_witness :
  starts (snd (check_availability Sample.cfg 3 Sample.third_time_lucky)) = 3
  /\ starts (snd (check_availability Sample.cfg 3 (fun _ => Sample.open_today)))
     = 1
  /\ starts (snd (check_availability Sample.cfg 3 (fun _ => Sample.crashing)))
     = 3.
Proof.
  split; [|split].
  - apply (check_availability_attempts Sample.cfg 3 Sample.third_time_lucky)
      with (k := 2); [lia | | reflexivity].
    intros [|[|j]] Hj; [reflexivity | reflexivity | lia].
  - apply (check_availability_attempts Sample.cfg 3 (fun _ => Sample.open_today))
      with (k := 0); [lia | | reflexivity].
    intros j Hj. lia.
  - apply (check_availability_attempts Sample.cfg 3 (fun _ => Sample.crashing)).
    intros k _. reflexivity.
Defined.

Lemma check_availability_total_sleep (cfg : config) (m : nat)
      (sessions : nat -> session) :
  (0 <= total_sleep (snd (check_availability cfg m sessions))
   <= 15 * Z.of_nat (attempts_made m sessions - 1))%Z
  /\ (total_sleep (snd (check_availability cfg m sessions))
      <= 15 * Z.of_nat (m - 1))%Z.
Proof.
  pose proof (total_sleep_attempts cfg m sessions m 0 eq_refl) as H.
  rewrite <- check_availability_trace in H. fold (attempts_made m sessions) in H.
  pose proof (attempts_run_le sessions m 0) as Hle.
  fold (attempts_made m sessions) in Hle.
  split; [exact H | lia].
Qed.

(** X5: the time a check spends waiting is bounded.  It waits 5 or 10
    seconds at a time, at most 15 seconds after each attempt that is
    followed by another one, and not at all after the last attempt it
    makes: at most [15 * (max_retries - 1)] seconds in all, and nothing
    when the first attempt goes through. *)
Theorem check_availability_waits_bounded (cfg : config) (m : nat)
        (sessions : nat -> session) :
  (0 <= total_sleep (snd (check_availability cfg m sessions))
   <= 15 * Z.of_nat (attempts_made m sessions - 1))%Z
  /\ (total_sleep (snd (check_availability cfg m sessions))
      <= 15 * Z.of_nat (m - 1))%Z
  /\ (0 < m -> attempt_succeeds (sessions 0) = true ->
      sleeps (snd (check_availability cfg m sessions)) = []).
Proof.
  destruct (check_availability_total_sleep cfg m sessions) as [H Hm].
  split; [exact H|]. split; [exact Hm|].
  intros Hpos H0.
  rewrite check_availability_trace. unfold attempts_made.
  destruct m as [|m']; [lia|]. cbn [attempts_run]. rewrite H0.
  cbn [seq flat_map]. rewrite app_nil_r. unfold attempt_trace.
  destruct (check_attempt_facts cfg (S m') 0 (sessions 0) None)
    as (l1 & t1 & E & _ & _ & Hs & _).
  rewrite E. cbn [snd]. rewrite Hs. unfold attempt_sleeps. now rewrite H0.
Qed.

Lemma check_availability_waits_bounded_witness :
  sleeps (snd (check_availability Sample.cfg 3 (fun _ => Sample.open_today)))
  = []
  /\ total_sleep (snd (check_availability Sample.cfg 3
                         (fun _ => Sample.unreachable))) = 10%Z.
Proof.
  split; [|reflexivity].
  apply (check_availability_waits_bounded Sample.cfg 3
           (fun _ => Sample.open_today)); [lia | reflexivity].
Defined.

(** X6: what a check does to the outside world.  Its only effects are log
    lines, waits and browser calls: it reads no clock, prints nothing and
    does not post to the webhook; every navigation goes to [CLINIC_URL]
    with a timeout of 30 seconds, and there are at most [max_retries] of
    them. *)
Theorem check_availability_effects (cfg : config) (m : nat)
        (sessions : nat -> session) :
  forallb checker_event (snd (check_availability cfg m sessions)) = true
  /\ posts (snd (check_availability cfg m sessions)) = 0
  /\ Forall (eq (CLINIC_URL cfg, 30000%Z))
       (gotos (snd (check_availability cfg m sessions)))
  /\ List.length (gotos (snd (check_availability cfg m sessions))) <= m.
Proof.
  destruct (check_availability_facts cfg m sessions) as (t & E & _ & Hev).
  pose proof (gotos_attempts cfg m sessions (attempts_made m sessions) 0)
    as [Hall Hlen].
  rewrite <- check_availability_trace in Hall, Hlen.
  pose proof (attempts_run_le sessions m 0) as Hle.
  fold (attempts_made m sessions) in Hle.
  rewrite E in *. cbn [snd] in *.
  repeat split; [exact Hev | now apply posts_checker | exact Hall | lia].
Qed.

(** X7: the calls of [browser.close()] of an attempt.  Without a browser
    (entering Playwright or the launch failed) there is none; when a
    navigation fails in an attempt that is not the last, the browser is
    closed in the handler and once more in the [finally] block, two calls;
    on every other path there is exactly one. *)
Theorem check_attempt_close_calls (cfg : config) (m a : nat) (s : session)
        (l : check_locals) :
  (launched s = false ->
   closes (snd (check_attempt cfg m a s l)) = 0)
  /\ (a < m - 1 -> navigation_fails s = true ->
      closes (snd (check_attempt cfg m a s l)) = 2)
  /\ (launched s = true -> navigation_fails s = false ->
      closes (snd (check_attempt cfg m a s l)) = 1)
  /\ (launched s = true -> m - 1 <= a ->
      closes (snd (check_attempt cfg m a s l)) = 1).
Proof.
  destruct (check_attempt cfg m a s l) as [[c l'] t] eqn:E.
  destruct (check_attempt_trace_facts _ _ _ _ _ _ _ _ E) as (_ & Hc & _).
  cbn [snd]. rewrite Hc. unfold attempt_closes.
  repeat split.
  - intros ->. reflexivity.
  - intros Hlt Hnav. apply Nat.ltb_lt in Hlt. rewrite Hlt, Hnav.
    assert (Hl : launched s = true).
    { unfold navigation_fails in Hnav. unfold launched. cbn in Hnav.
      destruct (succeeds_at s AtStart), (succeeds_at s AtLaunch);
        try discriminate; reflexivity. }
    now rewrite Hl.
  - intros -> ->. now rewrite andb_false_r.
  - intros -> Hge. apply Nat.ltb_ge in Hge. now rewrite Hge.
Qed.

Lemma check_attempt_close_calls_witness :
  closes (snd (check_attempt Sample.cfg 3 0 Sample.unreachable None)) = 2
  /\ closes (snd (check_attempt Sample.cfg 3 2 Sample.unreachable None)) = 1
  /\ closes (snd (check_attempt Sample.cfg 3 0 Sample.open_today None)) = 1.
Proof.
  split; [|split].
  - destruct (check_attempt_close_calls Sample.cfg 3 0 Sample.unreachable None)
      as (_ & Hretry & _).
    apply Hretry; [simpl; lia | reflexivity].
  - destruct (check_attempt_close_calls Sample.cfg 3 2 Sample.unreachable None)
      as (_ & _ & _ & Hlast).
    apply Hlast; [reflexivity | simpl; lia].
  - destruct (check_attempt_close_calls Sample.cfg 3 0 Sample.open_today None)
      as (_ & _ & Hone & _).
    apply Hone; reflexivity.
Defined.

Lemma find_seq_some (f : nat -> bool) (k : nat) : forall (n a : nat),
  List.find f (seq a n) = Some k ->
  a <= k < a + n /\ f k = true /\ forall j, a <= j < k -> f j = false.
Proof.
  induction n as [|n IH]; intros a H; [discriminate|].
  cbn [seq List.find] in H. destruct (f a) eqn:Hfa.
  - injection H as <-. repeat split; [lia | lia | exact Hfa | intros j Hj; lia].
  - destruct (IH (S a) H) as (Hk & Hfk & Hbefore).
    repeat split; [lia | lia | exact Hfk |].
    intros j Hj. destruct (Nat.eq_dec j a) as [->|Hne]; [exact Hfa|].
    apply Hbefore. lia.
Qed.

(** X8: [True] is never reported from a failed attempt.  When a check
    returns [True], one of its attempts went through without an error, all
    attempts before it failed, and the first day group of the page it
    loaded contains a marked cell. *)
Theorem check_availability_true_only_from_success (cfg : config) (m : nat)
        (sessions : nat -> session) :
  fst (check_availability cfg m sessions) = Returns true ->
  exists k,
    k < m
    /\ (forall j, j < k -> attempt_succeeds (sessions j) = false)
    /\ attempt_succeeds (sessions k) = true
    /\ available (rendered (sessions k)) = true.
Proof.
  destruct (check_availability_facts cfg m sessions) as (t & E & _).
  rewrite E. cbn [fst]. unfold expected_availability.
  intros H. injection H as H.
  destruct (List.find _ (seq 0 m)) as [k|] eqn:Hfind; [|discriminate].
  destruct (find_seq_some _ _ _ _ Hfind) as (Hk & Hsucc & Hbefore).
  exists k. repeat split; [lia | | exact Hsucc | exact H].
  intros j Hj. apply Hbefore. lia.
Qed.

Lemma check_availability_true_only_from_success_witness :
  exists k,
    k < 3
    /\ (forall j, j < k -> attempt_succeeds (Sample.third_time_lucky j) = false)
    /\ attempt_succeeds (Sample.third_time_lucky k) = true
    /\ available (rendered (Sample.third_time_lucky k)) = true.
Proof.
  apply (check_availability_true_only_from_success Sample.cfg 3
           Sample.third_time_lucky).
  reflexivity.
Defined.

(* ------------------------------------------------------------------ *)
(** * More about the notifier, the loop and the entry point *)

(** X9: only the status 200 counts as a success.  The notifier posts once
    to [SLACK_WEBHOOK_URL] and logs the success for the reply 200; every
    other status, the other codes of the 2xx range included, is logged as
    an error with the code, and an error of the transport is logged with
    its message. *)
Theorem send_slack_notification_only_200 (cfg : config) (timestamp : string)
        (reply : post_reply) :
  post_urls (snd (send_slack_notification cfg timestamp reply))
  = [SLACK_WEBHOOK_URL cfg]
  /\ (reply = Status 200 ->
      logged (snd (send_slack_notification cfg timestamp reply))
      = [(INFO, "Slack notification sent successfully")])
  /\ (forall code, reply = Status code -> code <> 200%Z ->
      logged (snd (send_slack_notification cfg timestamp reply))
      = [(ERROR, ("Failed to send Slack notification: " ++ str_Z code)%string)])
  /\ (forall err, reply = TransportError err ->
      logged (snd (send_slack_notification cfg timestamp reply))
      = [(ERROR,
          ("Error occurred while sending Slack notification: " ++ err)%string)]).
Proof.
  unfold send_slack_notification, send_slack_notification_body, run_body,
    try_except, bind, requests_post, emit, log, raise, ret.
  repeat split.
  - destruct reply as [code|err]; cbn; [|reflexivity].
    destruct (code =? 200)%Z; reflexivity.
  - intros ->. reflexivity.
  - intros code -> Hne. cbn.
    destruct (code =? 200)%Z eqn:H200; [|reflexivity].
    apply Z.eqb_eq in H200. contradiction.
  - intros err ->. reflexivity.
Qed.

(** The webhook answers 204 No Content: an error is logged. *)
Lemma send_slack_notification_only_200_witness :
  logged (snd (send_slack_notification Sample.cfg "2023-11-14 22:13:20"
                 (Status 204)))
  = [(ERROR, "Failed to send Slack notification: 204")]
  /\ logged (snd (send_slack_notification Sample.cfg "2023-11-14 22:13:20"
                    (Status 200)))
     = [(INFO, "Slack notification sent successfully")].
Proof.
  destruct (send_slack_notification_only_200 Sample.cfg "2023-11-14 22:13:20"
              (Status 204)) as (_ & _ & Hother & _).
  destruct (send_slack_notification_only_200 Sample.cfg "2023-11-14 22:13:20"
              (Status 200)) as (_ & H200 & _).
  split.
  - apply (Hother 204%Z); [reflexivity | discriminate].
  - apply H200. reflexivity.
Defined.

Lemma printed_app (t1 t2 : trace) :
  printed (t1 ++ t2) = printed t1 ++ printed t2.
Proof.
  induction t1 as [|e t1 IH]; [reflexivity|].
  destruct e; cbn; rewrite ?IH; reflexivity.
Qed.

Lemma post_urls_app (t1 t2 : trace) :
  post_urls (t1 ++ t2) = post_urls t1 ++ post_urls t2.
Proof.
  induction t1 as [|e t1 IH]; [reflexivity|].
  destruct e; cbn; rewrite ?IH; reflexivity.
Qed.

Lemma clock_readings_app (t1 t2 : trace) :
  clock_readings (t1 ++ t2) = clock_readings t1 + clock_readings t2.
Proof.
  induction t1 as [|e t1 IH]; [reflexivity|].
  destruct e; cbn; rewrite ?IH; reflexivity.
Qed.

Lemma logs_error_app (t1 t2 : trace) :
  logs_error (t1 ++ t2) = logs_error t1 || logs_error t2.
Proof. apply existsb_app. Qed.

(** A browser check leaves no trace of the other kinds. *)
Lemma checker_trace_quiet (t : trace) :
  forallb checker_event t = true ->
  printed t = [] /\ post_urls t = [] /\ clock_readings t = 0.
Proof.
  induction t as [|e t IH]; [repeat split|].
  cbn [forallb]. intros H. apply andb_true_iff in H as [He Ht].
  destruct (IH Ht) as (Hp & Hu & Hc).
  destruct e; try discriminate; cbn; auto.
Qed.

(** What one iteration leaves in the trace, counted by kind. *)
Lemma monitor_iteration_counts (cfg : config) (p : poll) (last : Q) :
  sleeps (snd (monitor_iteration cfg p last))
  = sleeps (snd (check_availability cfg 3 (sessions p)))
    ++ [if float_overflows (CHECK_INTERVAL cfg)
        then 60%Z else CHECK_INTERVAL cfg]
  /\ printed (snd (monitor_iteration cfg p last)) = []
  /\ Forall (eq (SLACK_WEBHOOK_URL cfg))
       (post_urls (snd (monitor_iteration cfg p last)))
  /\ clock_readings (snd (monitor_iteration cfg p last)) = 1.
Proof.
  rewrite monitor_iteration_shape. cbn [snd].
  destruct (check_availability_facts cfg 3 (sessions p)) as (tc & Ec & _ & Hev).
  destruct (send_slack_notification_facts cfg (timestamp p) (reply p))
    as (lv & msg & Es & _).
  rewrite Ec, Es. cbn [snd].
  destruct (checker_trace_quiet tc Hev) as (Hp & Hu & Hc).
  cbn [sleeps printed post_urls clock_readings].
  rewrite !sleeps_app, !printed_app, !post_urls_app, !clock_readings_app.
  rewrite Hp, Hu, Hc. unfold iteration_wait.
  destruct (expected_availability 3 (sessions p)
            && Qgtb (clock p - last) (NOTIFICATION_INTERVAL cfg)),
    (expected_availability 3 (sessions p)),
    (float_overflows (CHECK_INTERVAL cfg)); cbn;
    repeat split; auto.
Qed.

Section LoopTrace.
Variable cfg : config.
Variable polls : nat -> poll.

Let body (k : nat) : M Q unit unit := monitor_iteration cfg (polls k).
Let stops (k : nat) : bool := interrupted (polls k).

(** A property of traces that holds of the empty trace, of every
    iteration, and of the concatenation of two traces that have it, holds
    of the loop. *)
Lemma monitor_loop_invariant (P : trace -> Prop) :
  P [] ->
  (forall t1 t2, P t1 -> P t2 -> P (t1 ++ t2)) ->
  (forall k last, P (snd (monitor_iteration cfg (polls k) last))) ->
  forall fuel k last, P (snd (while_true fuel k body last)).
Proof.
  intros Hnil Happ Hiter.
  induction fuel as [|fuel IH]; intros k last; [exact Hnil|].
  cbn [while_true]. unfold body at 1.
  specialize (Hiter k last).
  destruct (monitor_iteration cfg (polls k) last) as [[c l1] t1].
  cbn [snd] in Hiter.
  destruct c; try exact Hiter.
  - specialize (IH (S k) l1).
    destruct (while_true fuel (S k) body l1) as [[c2 l2] t2].
    cbn [snd] in *. now apply Happ.
  - specialize (IH (S k) l1).
    destruct (while_true fuel (S k) body l1) as [[c2 l2] t2].
    cbn [snd] in *. now apply Happ.
Qed.

(** The loop makes one reading of the clock per iteration, up to and
    including the first interrupted one. *)
Lemma monitor_loop_readings (fuel : nat) : forall (k : nat) (last : Q),
  clock_readings (snd (while_true fuel k body last)) = polls_run stops k fuel.
Proof.
  induction fuel as [|fuel IH]; intros k last; [reflexivity|].
  cbn [while_true polls_run]. unfold body at 1, stops at 1.
  pose proof (monitor_iteration_counts cfg (polls k) last)
    as (_ & _ & _ & Hone).
  rewrite monitor_iteration_shape in *. cbn [snd] in Hone.
  destruct (interrupted (polls k)); [exact Hone|].
  specialize (IH (S k)
                (if expected_availability 3 (sessions (polls k))
                    && Qgtb (clock (polls k) - last) (NOTIFICATION_INTERVAL cfg)
                 then clock (polls k) else last)).
  destruct (while_true fuel (S k) body _) as [[c l2] t2].
  cbn [snd] in *. rewrite clock_readings_app, Hone, IH. reflexivity.
Qed.

Lemma polls_run_first (j : nat) : forall fuel k,
  k <= j < k + fuel ->
  (forall i, k <= i < j -> stops i = false) ->
  stops j = true ->
  polls_run stops k fuel = S j - k.
Proof.
  induction fuel as [|fuel IH]; intros k Hj Hbefore Hstop; [lia|].
  cbn [polls_run]. destruct (Nat.eq_dec k j) as [->|Hne].
  - rewrite Hstop. lia.
  - rewrite (Hbefore k) by lia.
    rewrite (IH (S k)); [lia | lia | | exact Hstop].
    intros i Hi. apply Hbefore. lia.
Qed.

End LoopTrace.

(** The trace of [main] for a configuration that is accepted. *)
Lemma main_trace_accepted (urlparse : string -> parse_result + string)
      (cfg : config) (fuel : nat) (polls : nat -> poll) :
  config_rejected urlparse cfg = false ->
  snd (main urlparse cfg fuel polls)
  = Log INFO "Environment variables validated successfully"
    :: snd (monitor_bookings cfg fuel polls).
Proof.
  intros Hok. pose proof (main_facts urlparse cfg fuel polls) as H.
  rewrite Hok in H. now rewrite H.
Qed.

(** X10: a notification that failed is not sent again within the
    cooldown.  When the check reports availability after the cooldown and
    the post fails, the error is logged and the time of the iteration is
    kept as the last notification time; the next iteration, if it starts
    within the cooldown of that time, does not post even though slots are
    still reported. *)
Theorem failed_notification_not_retried (cfg : config) (p1 p2 : poll)
        (last : Q) :
  fst (check_availability cfg 3 (sessions p1)) = Returns true ->
  (clock p1 - last > inject_Z (NOTIFICATION_INTERVAL cfg))%Q ->
  post_failed (reply p1) = true ->
  (clock p2 - clock p1 <= inject_Z (NOTIFICATION_INTERVAL cfg))%Q ->
  exists c1 t1 c2 t2,
    monitor_iteration cfg p1 last = (c1, clock p1, t1)
    /\ logs_error t1 = true
    /\ monitor_iteration cfg p2 (clock p1) = (c2, clock p1, t2)
    /\ posts t2 = 0.
Proof.
  intros Havail Hgt Hfail Hsoon.
  destruct (check_availability_facts cfg 3 (sessions p1)) as (tc & Ec & _).
  rewrite Ec in Havail. injection Havail as Havail.
  apply Qgtb_lt in Hgt. apply Qgtb_le in Hsoon.
  destruct (monitor_iteration_facts cfg p2 (clock p1)) as (t2 & E2 & Hposts & _).
  rewrite Hsoon, andb_false_r in E2, Hposts.
  eexists _, _, _, t2.
  split; [|split; [|split; [exact E2 | exact Hposts]]].
  - rewrite monitor_iteration_shape. rewrite Havail, Hgt. reflexivity.
  - destruct (send_slack_notification_facts cfg (timestamp p1) (reply p1))
      as (lv & msg & Es & Hlv).
    rewrite Es, (Hlv Hfail). cbn [snd andb].
    change (Clock (clock p1) :: ?a ++ ?b) with ([Clock (clock p1)] ++ a ++ b).
    rewrite !logs_error_app. cbn. now rewrite orb_true_r.
Qed.

(** The webhook answers 500 to the first alert; five minutes later slots
    are still free and the webhook would work, but nothing is posted. *)
Lemma failed_notification_not_retried_witness :
  exists c1 t1 c2 t2,
    monitor_iteration Sample.cfg Sample.poll_webhook_down 0%Q
    = (c1, 1700000000%Q, t1)
    /\ logs_error t1 = true
    /\ monitor_iteration Sample.cfg Sample2.poll_soon_after 1700000000%Q
       = (c2, 1700000000%Q, t2)
    /\ posts t2 = 0.
Proof.
  apply (failed_notification_not_retried Sample.cfg Sample.poll_webhook_down
           Sample2.poll_soon_after 0%Q); try reflexivity.
  cbn. discriminate.
Defined.



(** X12: the loop checks once per iteration and is left at the first
    interrupt.  When the process is interrupted during iteration [j] and
    not before, a run with more than [j] iterations of fuel reads the clock
    [j + 1] times, once per iteration, and [monitor_bookings] ends with
    [CancelledError]: it does not return. *)
Theorem monitor_bookings_stops_at_interrupt (cfg : config) (fuel : nat)
        (polls : nat -> poll) (j : nat) :
  j < fuel ->
  (forall i, i < j -> interrupted (polls i) = false) ->
  interrupted (polls j) = true ->
  fst (monitor_bookings cfg fuel polls) = Raises CancelledError
  /\ clock_readings (snd (monitor_bookings cfg fuel polls)) = S j.
Proof.
  intros Hj Hbefore Hstop. split.
  - rewrite monitor_bookings_outcome.
    rewrite (existsb_seq_true _ j); [reflexivity | lia | exact Hstop].
  - rewrite monitor_bookings_trace. cbn [clock_readings].
    rewrite monitor_loop_readings.
    rewrite (polls_run_first polls j); [lia | lia | | exact Hstop].
    intros i Hi. apply Hbefore. lia.
Qed.

Lemma monitor_bookings_stops_at_interrupt_witness :
  fst (monitor_bookings Sample.cfg 10 Sample.polls) = Raises CancelledError
  /\ clock_readings (snd (monitor_bookings Sample.cfg 10 Sample.polls)) = 6.
Proof.
  apply (monitor_bookings_stops_at_interrupt Sample.cfg 10 Sample.polls 5).
  - lia.
  - intros [|[|[|[|[|i]]]]] Hi; try reflexivity. lia.
  - reflexivity.
Defined.

Lemma inject_nat_succ (n : nat) :
  (inject_Z (Z.of_nat (S n)) == inject_Z (Z.of_nat n) + 1)%Q.
Proof.
  rewrite Nat2Z.inj_succ. unfold Z.succ. rewrite inject_Z_plus. reflexivity.
Qed.

Lemma spaced_far (gap : Z) (last : Q) (times : list Q) :
  spaced gap last times ->
  forall i ti, nth_error times i = Some ti ->
               (ti - last > inject_Z (Z.of_nat (S i)) * inject_Z gap)%Q.
Proof.
  revert last.
  induction times as [|t0 times IH]; intros last Hsp i ti Hi.
  - destruct i; discriminate.
  - destruct Hsp as [H0 Hrest]. destruct i as [|i]; cbn [nth_error] in Hi.
    + injection Hi as <-. change (inject_Z (Z.of_nat 1)) with 1%Q. lra.
    + specialize (IH t0 Hrest i ti Hi).
      rewrite (inject_nat_succ (S i)). lra.
Qed.

Lemma spaced_apart (gap : Z) (last : Q) (times : list Q) :
  spaced gap last times ->
  forall i j ti tj,
    i < j -> nth_error times i = Some ti -> nth_error times j = Some tj ->
    (tj - ti > inject_Z (Z.of_nat (j - i)) * inject_Z gap)%Q.
Proof.
  revert last.
  induction times as [|t0 times IH]; intros last Hsp i j ti tj Hij Hi Hj.
  - destruct i; discriminate.
  - destruct Hsp as [H0 Hrest].
    destruct j as [|j]; [lia|]. cbn [nth_error] in Hj.
    destruct i as [|i]; cbn [nth_error] in Hi.
    + injection Hi as <-.
      replace (S j - 0) with (S j) by lia.
      exact (spaced_far gap t0 times Hrest j tj Hj).
    + replace (S j - S i) with (j - i) by lia.
      apply (IH t0 Hrest i j); [lia | assumption | assumption].
Qed.

(** X13: the rate of the notifications.  In any run of the loop, whatever
    the cooldown, the notification that comes [k] notifications after
    another one is stamped more than [k * NOTIFICATION_INTERVAL] seconds
    later; counted from the initial last notification time 0, the
    notification number [i + 1] of a run is stamped after second
    [(i + 1) * NOTIFICATION_INTERVAL]. *)
Theorem notifications_rate (cfg : config) (fuel : nat) (polls : nat -> poll)
        (now : Q) (i j : nat) (ti tj : Q) :
  nth_error (notification_times now (snd (monitor_bookings cfg fuel polls))) i
  = Some ti ->
  nth_error (notification_times now (snd (monitor_bookings cfg fuel polls))) j
  = Some tj ->
  (ti > inject_Z (Z.of_nat (S i)) * inject_Z (NOTIFICATION_INTERVAL cfg))%Q
  /\ (i < j ->
      (tj - ti
       > inject_Z (Z.of_nat (j - i)) * inject_Z (NOTIFICATION_INTERVAL cfg))%Q).
Proof.
  intros Hi Hj.
  pose proof (monitor_bookings_spaced cfg polls fuel now) as Hsp.
  split.
  - pose proof (spaced_far _ _ _ Hsp i ti Hi) as Hfar. lra.
  - intros Hij. exact (spaced_apart _ _ _ Hsp i j ti tj Hij Hi Hj).
Qed.

(** Free slots every ten minutes and a cooldown of thirty: the two
    notifications of the run are forty minutes apart. *)
Lemma notifications_rate_witness :
  (1700000000 > inject_Z (Z.of_nat 1) * inject_Z 1800)%Q
  /\ (1700002400 - 1700000000 > inject_Z (Z.of_nat (1 - 0)) * inject_Z 1800)%Q.
Proof.
  destruct (notifications_rate Sample.cfg 6 Sample.polls 0 0 1
              1700000000 1700002400 eq_refl eq_refl) as [Hfirst Hapart].
  split; [exact Hfirst | apply Hapart; lia].
Defined.

(** The configurations the validator refuses are those with a message. *)
Lemma config_rejected_message (urlparse : string -> parse_result + string)
      (cfg : config) :
  config_rejected urlparse cfg
  = match validation_message urlparse cfg with
    | Some _ => true
    | None => false
    end.
Proof.
  pose proof (validate_environment_facts urlparse cfg) as Hf.
  rewrite validate_environment_message in Hf.
  destruct (config_rejected urlparse cfg),
    (validation_message urlparse cfg) as [msg|]; try reflexivity.
  - destruct Hf as (msg & Hf). discriminate.
  - discriminate.
Qed.

(** X14: [main] posts to the validated webhook only.  Every address that
    a run of [main] posts to is [SLACK_WEBHOOK_URL], and a run that posts
    at all has found that URL well formed and its network location ending
    in [slack.com]. *)
Theorem main_posts_to_validated_webhook
        (urlparse : string -> parse_result + string) (cfg : config)
        (fuel : nat) (polls : nat -> poll) (url : string) :
  In url (post_urls (snd (main urlparse cfg fuel polls))) ->
  url = SLACK_WEBHOOK_URL cfg
  /\ well_formed urlparse url = true
  /\ netloc_on_slack urlparse url = true.
Proof.
  intros Hin.
  pose proof (main_facts urlparse cfg fuel polls) as Hm.
  destruct (config_rejected urlparse cfg) eqn:Hrej.
  - destruct Hm as (msg & Hm). rewrite Hm in Hin. cbn in Hin. destruct Hin.
  - rewrite (main_trace_accepted _ _ _ _ Hrej) in Hin.
    rewrite monitor_bookings_trace in Hin. cbn [post_urls] in Hin.
    assert (Hall : Forall (eq (SLACK_WEBHOOK_URL cfg))
                     (post_urls (snd (while_true fuel 0
                        (fun k => monitor_iteration cfg (polls k)) 0%Q)))).
    { apply (monitor_loop_invariant cfg polls
               (fun t => Forall (eq (SLACK_WEBHOOK_URL cfg)) (post_urls t))).
      - constructor.
      - intros t1 t2 H1 H2. rewrite post_urls_app.
        apply Forall_app. split; assumption.
      - intros k last. apply monitor_iteration_counts. }
    rewrite Forall_forall in Hall. specialize (Hall url Hin). subst url.
    unfold config_rejected in Hrej.
    apply orb_false_iff in Hrej as [Hrej _].
    apply orb_false_iff in Hrej as [Hrej _].
    apply orb_false_iff in Hrej as [Hrej Hslack].
    apply orb_false_iff in Hrej as [_ Hwf].
    apply negb_false_iff in Hslack, Hwf. repeat split; assumption.
Qed.

(** The run of the sample posts to the webhook of the sample. *)
Lemma main_posts_to_validated_webhook_witness :
  "https://hooks.slack.com/services/T0/B0/X" = SLACK_WEBHOOK_URL Sample.cfg
  /\ well_formed Url.urlsplit_ascii "https://hooks.slack.com/services/T0/B0/X"
     = true
  /\ netloc_on_slack Url.urlsplit_ascii
       "https://hooks.slack.com/services/T0/B0/X" = true.
Proof.
  apply (main_posts_to_validated_webhook Url.urlsplit_ascii Sample.cfg 6
           Sample.polls).
  vm_compute. left. reflexivity.
Defined.

(** X15: [main] prints exactly when it refuses the configuration.  With a
    configuration the validator refuses, [main] logs the error, prints it
    with the usage summary and returns 1 without another effect: no
    browser is started, nothing is posted, no clock is read and there is
    no wait.  With a configuration it accepts, nothing is printed however
    long the loop runs. *)
Theorem main_prints_only_on_refusal
        (urlparse : string -> parse_result + string) (cfg : config)
        (fuel : nat) (polls : nat -> poll) :
  (forall msg,
      validation_message urlparse cfg = Some msg ->
      main urlparse cfg fuel polls
      = (Returns 1%Z,
         Log ERROR ("Configuration error: " ++ msg)
         :: Print ("Error: " ++ msg) :: map Print usage_lines)
      /\ starts (snd (main urlparse cfg fuel polls)) = 0
      /\ post_urls (snd (main urlparse cfg fuel polls)) = []
      /\ clock_readings (snd (main urlparse cfg fuel polls)) = 0
      /\ sleeps (snd (main urlparse cfg fuel polls)) = [])
  /\ (validation_message urlparse cfg = None ->
      printed (snd (main urlparse cfg fuel polls)) = []).
Proof.
  split.
  - intros msg Hmsg.
    assert (Hmain : main urlparse cfg fuel polls
                    = (Returns 1%Z,
                       Log ERROR ("Configuration error: " ++ msg)
                       :: Print ("Error: " ++ msg) :: map Print usage_lines)).
    { unfold main, main_body, run_body, try_except, bind, call, print_usage,
        print, log, emit, return_.
      rewrite validate_environment_message, Hmsg. reflexivity. }
    rewrite Hmain. repeat split.
  - intros Hnone.
    assert (Hok : config_rejected urlparse cfg = false).
    { rewrite config_rejected_message. now rewrite Hnone. }
    rewrite (main_trace_accepted _ _ _ _ Hok), monitor_bookings_trace.
    cbn [printed].
    apply (monitor_loop_invariant cfg polls (fun t => printed t = [])).
    + reflexivity.
    + intros t1 t2 H1 H2. now rewrite printed_app, H1, H2.
    + intros k last. apply monitor_iteration_counts.
Qed.

Lemma main_prints_only_on_refusal_witness :
  starts (snd (main Url.urlsplit_ascii Sample2.cfg_elsewhere 6 Sample.polls))
  = 0
  /\ printed (snd (main Url.urlsplit_ascii Sample.cfg 6 Sample.polls)) = [].
Proof.
  destruct (main_prints_only_on_refusal Url.urlsplit_ascii
              Sample2.cfg_elsewhere 6 Sample.polls) as [Hrefused _].
  destruct (main_prints_only_on_refusal Url.urlsplit_ascii
              Sample.cfg 6 Sample.polls) as [_ Haccepted].
  split.
  - apply (Hrefused "Invalid SLACK_WEBHOOK_URL: SLACK_WEBHOOK_URL must be a Slack webhook URL").
    reflexivity.
  - apply Haccepted. reflexivity.
Defined.
